(** * FlightDelayHackathon: training pipeline and prediction service

    A shallow embedding of [create_model.py] (the offline training script)
    and [server/app.py] (the Flask prediction service), followed by the
    properties of the two that the specification states.

    Conventions of the embedding.
    - Python [int] is [Z]; Python/NumPy [float] values (probabilities,
      percentages, the label column) are exact rationals [Q], so rounding
      of binary floating point is not part of the model and numeric
      equality is [Qeq].
    - A parsed JSON body is a value of [json]; a Python [dict] obtained
      from JSON is an association list looked up by first match.
    - The globals [model], [model_info] and [airports_df] of the service
      are the fields of [ServerState].
    - A handler runs in a small monad that threads the log of classifier
      invocations and may raise; [try ... except Exception] is [try_except].
    - [data] is the value [request.get_json()] returned; the HTTP layer
      (routing, headers, body parsing) is outside the model. *)

From Stdlib Require Import ZArith QArith Qminmax Qround.
From Stdlib Require Import String Ascii DecimalString.
From Stdlib Require Import List Bool Lia Lqa.
From Stdlib Require Import Sorting.Sorted Sorting.Permutation.
Import ListNotations.

Local Open Scope string_scope.
Local Open Scope Z_scope.

(* ================================================================== *)
(** ** Python values that reach the handlers *)

Module Py.

(** The result of [request.get_json()]. *)
#[local] Set Warnings "-register-all".
Inductive json : Type :=
| JNull
| JBool (b : bool)
| JInt (z : Z)
| JFloat (q : Q)
| JStr (s : string)
| JArr (items : list json)
| JObj (members : list (string * json)).

(** Exceptions, by class; [str(e)] is kept symbolic. *)
Inductive exn : Type :=
| TypeError (what : string)
| KeyError (key : string)
| ModelError (what : string).

Inductive outcome (A : Type) : Type :=
| Done (a : A)
| Raised (e : exn).
Arguments Done {A} a.
Arguments Raised {A} e.

(** Truth value of an object, as tested by [if not data]. *)
Definition truthy (v : json) : bool :=
  match v with
  | JNull => false
  | JBool b => b
  | JInt z => negb (z =? 0)
  | JFloat q => negb (Qeq_bool q 0)
  | JStr s => negb (s =? "")%string
  | JArr items => match items with [] => false | _ => true end
  | JObj members => match members with [] => false | _ => true end
  end.

Fixpoint lookup (k : string) (members : list (string * json)) : option json :=
  match members with
  | [] => None
  | (k', v) :: rest => if (k' =? k)%string then Some v else lookup k rest
  end.

(** [needle in hay] for two [str]: substring test. *)
Fixpoint substring_of (needle hay : string) : bool :=
  if prefix needle hay then true
  else match hay with
       | EmptyString => false
       | String _ rest => substring_of needle rest
       end.

Definition is_str (k : string) (v : json) : bool :=
  match v with JStr s => (s =? k)%string | _ => false end.

(** [k in data] for a string literal [k]. *)
Definition py_in (k : string) (data : json) : outcome bool :=
  match data with
  | JObj members => Done (match lookup k members with Some _ => true | None => false end)
  | JArr items => Done (existsb (is_str k) items)
  | JStr s => Done (substring_of k s)
  | JNull => Raised (TypeError "argument of type 'NoneType' is not iterable")
  | JBool _ => Raised (TypeError "argument of type 'bool' is not iterable")
  | JInt _ => Raised (TypeError "argument of type 'int' is not iterable")
  | JFloat _ => Raised (TypeError "argument of type 'float' is not iterable")
  end.

(** [data[k]] for a string literal [k]. *)
Definition py_getitem (data : json) (k : string) : outcome json :=
  match data with
  | JObj members =>
      match lookup k members with
      | Some v => Done v
      | None => Raised (KeyError k)
      end
  | JArr _ => Raised (TypeError "list indices must be integers or slices, not str")
  | JStr _ => Raised (TypeError "string indices must be integers")
  | _ => Raised (TypeError "object is not subscriptable")
  end.

(** [isinstance(v, int)]: [bool] is a subclass of [int]. *)
Definition isinstance_int (v : json) : bool :=
  match v with
  | JInt _ | JBool _ => true
  | _ => false
  end.

(** Numeric value of an [int] instance ([True] is 1, [False] is 0). *)
Definition int_value (v : json) : Z :=
  match v with
  | JInt z => z
  | JBool true => 1
  | _ => 0
  end.

(** [str(z)] for an [int]. *)
Definition str_int (z : Z) : string := NilZero.string_of_int (Z.to_int z).

(** [f"{v}"] for an [int] instance. *)
Definition format_int (v : json) : string :=
  match v with
  | JBool true => "True"
  | JBool false => "False"
  | _ => str_int (int_value v)
  end.

(** Built-in [max] over a non-empty iterable: the running best is replaced
    only by a strictly greater item. *)
Fixpoint max_from (best : Q) (rest : list Q) : Q :=
  match rest with
  | [] => best
  | x :: rest' => max_from (if Qle_bool x best then best else x) rest'
  end.

Definition py_max (first : Q) (rest : list Q) : Q := max_from first rest.

(** A value of the pickled metadata dictionary. *)
Inductive pyval : Type :=
| VStr (s : string)
| VInt (z : Z)
| VFloat (q : Q)
| VStrList (l : list string).

(** The metadata dictionary, in insertion order. *)
Definition ModelInfo : Type := list (string * pyval).

Fixpoint info_get (k : string) (info : ModelInfo) : option pyval :=
  match info with
  | [] => None
  | (k', v) :: rest => if (k' =? k)%string then Some v else info_get k rest
  end.

End Py.

(* ================================================================== *)
(** ** The training script ([create_model.py]) *)

Module Training.
Import Py.

(** A cell of an [object] column after [fillna(0)]: text, or the filler. *)
Inductive obj : Type :=
| OStr (s : string)
| OInt (z : Z).

(** The columns of [flights.csv] that the script names.  Each column has
    one dtype: [int] for the integer columns, [text] for the string
    columns, [label] for [DepDel15]; the three parameters are the cell
    types of these columns at one stage of the script.  The remaining
    columns of the file are only touched by [fillna] and are left out. *)
Record Row (int text label : Type) : Type := {
  DayOfWeek : int;
  OriginAirportID : int;
  DepDel15 : label;
  OriginAirportName : text;
  OriginCity : text;
  OriginState : text;
  DestAirportID : int;
  DestAirportName : text;
  DestCity : text;
  DestState : text
}.
Arguments DayOfWeek {int text label} _.
Arguments OriginAirportID {int text label} _.
Arguments DepDel15 {int text label} _.
Arguments OriginAirportName {int text label} _.
Arguments OriginCity {int text label} _.
Arguments OriginState {int text label} _.
Arguments DestAirportID {int text label} _.
Arguments DestAirportName {int text label} _.
Arguments DestCity {int text label} _.
Arguments DestState {int text label} _.

(** [df]: a cell is a value or missing (NaN). *)
Definition RawRecord : Type := Row (option Z) (option string) (option Q).
(** [df.fillna(0)] *)
Definition FilledRecord : Type := Row Z obj Q.
(** [df_clean] once [DepDel15] has been cast. *)
Definition CleanRecord : Type := Row Z obj Z.

Definition fillna_int (c : option Z) : Z :=
  match c with Some z => z | None => 0 end.
Definition fillna_float (c : option Q) : Q :=
  match c with Some q => q | None => 0%Q end.
Definition fillna_text (c : option string) : obj :=
  match c with Some s => OStr s | None => OInt 0 end.

(** [df.fillna(0)] *)
Definition fillna (df : list RawRecord) : list FilledRecord :=
  map (fun r : RawRecord =>
         {| DayOfWeek := fillna_int (DayOfWeek r);
            OriginAirportID := fillna_int (OriginAirportID r);
            DepDel15 := fillna_float (DepDel15 r);
            OriginAirportName := fillna_text (OriginAirportName r);
            OriginCity := fillna_text (OriginCity r);
            OriginState := fillna_text (OriginState r);
            DestAirportID := fillna_int (DestAirportID r);
            DestAirportName := fillna_text (DestAirportName r);
            DestCity := fillna_text (DestCity r);
            DestState := fillna_text (DestState r) |}) df.

(** [.astype(int)] on a number: the fraction is dropped (toward zero). *)
Definition astype_int (q : Q) : Z := Z.quot (Qnum q) (Z.pos (Qden q)).

(** Lines 49-54: [df_clean = df.fillna(0)], then
    [df_clean['DepDel15'] = df_clean['DepDel15'].astype(int)]. *)
Definition df_clean (df : list RawRecord) : list CleanRecord :=
  map (fun r : FilledRecord =>
         {| DayOfWeek := DayOfWeek r;
            OriginAirportID := OriginAirportID r;
            DepDel15 := astype_int (DepDel15 r);
            OriginAirportName := OriginAirportName r;
            OriginCity := OriginCity r;
            OriginState := OriginState r;
            DestAirportID := DestAirportID r;
            DestAirportName := DestAirportName r;
            DestCity := DestCity r;
            DestState := DestState r |}) (fillna df).

Definition features : list string := ["DayOfWeek"; "OriginAirportID"].

(** [X = df_clean[features]] and [y = df_clean['DepDel15']] *)
Definition X (clean : list CleanRecord) : list (Z * Z) :=
  map (fun r => (DayOfWeek r, OriginAirportID r)) clean.
Definition y (clean : list CleanRecord) : list Z :=
  map (fun r => DepDel15 r) clean.

(** Lines 143-148: the dictionary dumped to [model_info.pkl]. *)
Definition feature_info (accuracy : Q) : ModelInfo :=
  [ ("features", VStrList features);
    ("model_type", VStr "RandomForestClassifier");
    ("accuracy", VFloat accuracy);
    ("description", VStr "Predicts probability of flight delay >15 minutes based on day of week and airport") ].

(** A row of the airports table. *)
Record AirportRow : Type := {
  AirportID : Z;
  AirportName : obj;
  City : obj;
  State : obj
}.

Definition origin_airports (clean : list CleanRecord) : list AirportRow :=
  map (fun r => {| AirportID := OriginAirportID r;
                   AirportName := OriginAirportName r;
                   City := OriginCity r;
                   State := OriginState r |}) clean.

Definition dest_airports (clean : list CleanRecord) : list AirportRow :=
  map (fun r => {| AirportID := DestAirportID r;
                   AirportName := DestAirportName r;
                   City := DestCity r;
                   State := DestState r |}) clean.

(** [pd.concat([origin_airports, dest_airports])] *)
Definition concat (clean : list CleanRecord) : list AirportRow :=
  (origin_airports clean ++ dest_airports clean)%list.

(** [drop_duplicates(subset=['AirportID'])]: a row is kept unless its id
    was met before. *)
Fixpoint drop_duplicates_seen (seen : list Z) (rows : list AirportRow)
  : list AirportRow :=
  match rows with
  | [] => []
  | r :: rest =>
      if existsb (Z.eqb (AirportID r)) seen
      then drop_duplicates_seen seen rest
      else r :: drop_duplicates_seen (AirportID r :: seen) rest
  end.

Definition drop_duplicates (rows : list AirportRow) : list AirportRow :=
  drop_duplicates_seen [] rows.

(** [sort_values('AirportID')], ascending.  It is applied to rows with
    pairwise distinct ids, where every sorting method gives the same
    table; insertion is used here. *)
Fixpoint insert_by_id (r : AirportRow) (sorted : list AirportRow)
  : list AirportRow :=
  match sorted with
  | [] => [r]
  | r' :: rest =>
      if AirportID r <=? AirportID r' then r :: sorted
      else r' :: insert_by_id r rest
  end.

Fixpoint sort_values (rows : list AirportRow) : list AirportRow :=
  match rows with
  | [] => []
  | r :: rest => insert_by_id r (sort_values rest)
  end.

(** Lines 159-167; [reset_index(drop=True)] renumbers the rows. *)
Definition all_airports (clean : list CleanRecord) : list AirportRow :=
  sort_values (drop_duplicates (concat clean)).

(** The rows of a table that carry a given id. *)
Definition rows_with_id (airport_id : Z) (rows : list AirportRow)
  : list AirportRow :=
  filter (fun r => AirportID r =? airport_id) rows.

(** Order of two rows by id. *)
Definition id_le (r1 r2 : AirportRow) : Prop := AirportID r1 <= AirportID r2.
Definition id_lt (r1 r2 : AirportRow) : Prop := AirportID r1 < AirportID r2.

(** The first row of a list, alone. *)
Definition first_only (rows : list AirportRow) : list AirportRow :=
  match rows with
  | [] => []
  | first :: _ => [first]
  end.

End Training.

(* ================================================================== *)
(** ** The prediction service ([server/app.py]) *)

Module Server.
Import Py.

(** The feature row [[day_of_week, airport_id]] handed to the classifier. *)
Definition FeatureVector : Type := (Z * Z)%type.

(** The unpickled model: only [predict_proba] is used.  It answers a
    feature row with the pair (P(class 0), P(class 1)), or raises. *)
Record Classifier : Type := {
  predict_proba : FeatureVector -> outcome (Q * Q)
}.

(** One row of [airports.csv]. *)
Record Airport : Type := {
  AirportID : Z;
  AirportName : string;
  City : string;
  State : string
}.

(** Module globals [model], [model_info], [airports_df]. *)
Record ServerState : Type := {
  model : option Classifier;
  model_info : option ModelInfo;
  airports_df : option (list Airport)
}.

Definition initial_state : ServerState :=
  {| model := None; model_info := None; airports_df := None |}.

(** The three artifact files; [None] is a file that cannot be opened or
    parsed.  [pickle.load] gives back the object that was dumped. *)
Record Files : Type := {
  flight_delay_model_pkl : option Classifier;
  model_info_pkl : option ModelInfo;
  airports_csv : option (list Airport)
}.

(** [load_model_and_data]: the globals are assigned one after the other,
    and the first failure ends the function with [False], keeping what was
    assigned before it. *)
Definition load_model_and_data (fs : Files) (st : ServerState)
  : ServerState * bool :=
  match flight_delay_model_pkl fs with
  | None => (st, false)
  | Some m =>
    let st1 := {| model := Some m; model_info := model_info st;
                  airports_df := airports_df st |} in
    match model_info_pkl fs with
    | None => (st1, false)
    | Some info =>
      let st2 := {| model := Some m; model_info := Some info;
                    airports_df := airports_df st |} in
      match airports_csv fs with
      | None => (st2, false)
      | Some rows =>
        ({| model := Some m; model_info := Some info;
            airports_df := Some rows |}, true)
      end
    end
  end.

(** *** Effects of a handler *)

(** A computation reads and extends the log of classifier invocations. *)
Definition M (A : Type) : Type :=
  list FeatureVector -> outcome A * list FeatureVector.

Definition ret {A} (a : A) : M A := fun log => (Done a, log).

Definition bind {A B} (c : M A) (k : A -> M B) : M B :=
  fun log =>
    match c log with
    | (Done a, log') => k a log'
    | (Raised e, log') => (Raised e, log')
    end.

Definition lift {A} (o : outcome A) : M A := fun log => (o, log).

(** [model.predict_proba(features)[0]]: the call is logged, then answered. *)
Definition call_predict_proba (m : Classifier) (x : FeatureVector) : M (Q * Q) :=
  fun log => (predict_proba m x, (log ++ [x])%list).

Definition try_except {A} (body : M A) (handler : exn -> A) : M A :=
  fun log =>
    match body log with
    | (Done a, log') => (Done a, log')
    | (Raised e, log') => (Done (handler e), log')
    end.

Declare Scope handler_scope.
Delimit Scope handler_scope with handler.
Notation "x <- c ;; k" := (bind c (fun x => k))
  (at level 61, c at next level, right associativity) : handler_scope.
Local Open Scope handler_scope.

(** *** Responses *)

(** The value of the ["error"] key. *)
Inductive error_text : Type :=
| Msg (s : string)
| PredictionFailed (e : exn).   (* f"Prediction failed: {str(e)}" *)

Record Prediction : Type := {
  delay_probability : Q;
  delay_chance_percent : Q;
  confidence_percent : Q;
  no_delay_probability : Q;
  input_day_of_week : json;
  input_day_name : string;
  input_airport_id : json;
  input_airport_name : string;
  confidence_level : string
}.

Record AirportJson : Type := {
  id : Z;
  name : string;
  city : string;
  state : string
}.

Inductive payload : Type :=
| ErrorBody (error : error_text)
| PredictionBody (p : Prediction)
| AirportBody (airport : AirportJson)
| HealthBody (status : string) (model_loaded airports_loaded : bool).

(** A Flask view result: the JSON body and the status code. *)
Definition response : Type := (payload * Z)%type.

Definition ok (b : payload) : response := (b, 200).

(** *** [predict_delay] *)

(** [airport_id in airports_df['AirportID'].values] *)
Definition in_airport_ids (airport_id : Z) (df : list Airport) : bool :=
  existsb (fun row => AirportID row =? airport_id) df.

(** [airports_df[airports_df['AirportID'] == airport_id]] *)
Definition rows_with_id (airport_id : Z) (df : list Airport) : list Airport :=
  filter (fun row => AirportID row =? airport_id) df.

(** Lines 150-155: the airport name, ["Unknown"] unless a row is found. *)
Definition airport_name_of (df : option (list Airport)) (airport_id : Z) : string :=
  match df with
  | None => "Unknown"
  | Some rows =>
      match rows_with_id airport_id rows with
      | [] => "Unknown"
      | row :: _ => AirportName row
      end
  end.

(** [day_names.get(d, default)] *)
Definition day_names_get (d : Z) (default : string) : string :=
  match d with
  | 1 => "Monday" | 2 => "Tuesday" | 3 => "Wednesday" | 4 => "Thursday"
  | 5 => "Friday" | 6 => "Saturday" | 7 => "Sunday"
  | _ => default
  end.

(** ["High" if c > 80 else "Medium" if c > 60 else "Low"] *)
Definition confidence_level_of (c : Q) : string :=
  if negb (Qle_bool c 80) then "High"
  else if negb (Qle_bool c 60) then "Medium"
  else "Low".

Definition bad_request (s : string) : response := (ErrorBody (Msg s), 400).

Definition missing_fields_msg : string :=
  "Missing required fields: day_of_week and airport_id".
Definition day_of_week_msg : string :=
  "day_of_week must be an integer between 1 (Monday) and 7 (Sunday)".
Definition airport_id_msg : string := "airport_id must be an integer".
Definition airport_not_found_msg (airport_id : json) : string :=
  "Airport ID " ++ format_int airport_id ++ " not found in database".

(** The statements after the four validation blocks (lines 139-178).
    The ["message"] text of the interpretation block is not modelled. *)
Definition predict_compute (st : ServerState) (m : Classifier)
    (day_of_week airport_id : json) : M response :=
  let d := int_value day_of_week in
  let a := int_value airport_id in
  delay_probabilities <- call_predict_proba m (d, a) ;;
  let delay_probability := snd delay_probabilities in
  let no_delay_probability := fst delay_probabilities in
  let confidence_percent :=
    (py_max (fst delay_probabilities) [snd delay_probabilities] * 100)%Q in
  let airport_name := airport_name_of (airports_df st) a in
  ret (ok (PredictionBody {|
    delay_probability := delay_probability;
    delay_chance_percent := (delay_probability * 100)%Q;
    confidence_percent := confidence_percent;
    no_delay_probability := no_delay_probability;
    input_day_of_week := day_of_week;
    input_day_name := day_names_get d "Unknown";
    input_airport_id := airport_id;
    input_airport_name := airport_name;
    confidence_level := confidence_level_of confidence_percent |})).

(** The body of the [try] block of [predict_delay] (lines 101-178). *)
Definition predict_body (st : ServerState) (data : json) : M response :=
  match model st with
  | None => ret (ErrorBody (Msg "Model not loaded"), 500)
  | Some m =>
    if negb (truthy data) then ret (bad_request "No JSON data provided") else
    has_day <- lift (py_in "day_of_week" data) ;;
    missing <- (if negb has_day then ret true
                else has_airport <- lift (py_in "airport_id" data) ;;
                     ret (negb has_airport)) ;;
    if (missing : bool) then ret (bad_request missing_fields_msg) else
    day_of_week <- lift (py_getitem data "day_of_week") ;;
    airport_id <- lift (py_getitem data "airport_id") ;;
    if negb (isinstance_int day_of_week)
       || (int_value day_of_week <? 1) || (int_value day_of_week >? 7)
    then ret (bad_request day_of_week_msg) else
    if negb (isinstance_int airport_id)
    then ret (bad_request airport_id_msg) else
    if match airports_df st with
       | Some df => negb (in_airport_ids (int_value airport_id) df)
       | None => false
       end
    then ret (bad_request (airport_not_found_msg airport_id)) else
    predict_compute st m day_of_week airport_id
  end.

(** [predict_delay]: the body under [except Exception]. *)
Definition predict_delay (st : ServerState) (data : json) : M response :=
  try_except (predict_body st data)
             (fun e => (ErrorBody (PredictionFailed e), 500)).

(** One request on a fresh invocation log: the response and the feature
    rows the classifier was invoked on. *)
Definition handle_predict (st : ServerState) (data : json)
  : outcome response * list FeatureVector :=
  predict_delay st data [].

(** *** [health_check] and [get_airport_by_id] *)

Definition health_check (st : ServerState) : response :=
  ok (HealthBody "healthy"
        (match model st with Some _ => true | None => false end)
        (match airports_df st with Some _ => true | None => false end)).

Definition get_airport_by_id (st : ServerState) (airport_id : Z) : response :=
  match airports_df st with
  | None => (ErrorBody (Msg "Airports data not loaded"), 500)
  | Some df =>
      match rows_with_id airport_id df with
      | [] => (ErrorBody (Msg ("Airport with ID " ++ str_int airport_id
                               ++ " not found")), 404)
      | airport :: _ =>
          ok (AirportBody {| id := AirportID airport;
                             name := AirportName airport;
                             city := City airport;
                             state := State airport |})
      end
  end.

End Server.

(* ================================================================== *)
(** ** Reading the validation of [predict_delay] as a list of checks *)

Module Checks.
Import Py Server.

(** [day_of_week] is an [int] instance within 1..7. *)
Definition day_of_week_ok (v : json) : bool :=
  isinstance_int v && (1 <=? int_value v) && (int_value v <=? 7).

(** The membership test, which only exists when the table is loaded. *)
Definition airport_known (st : ServerState) (v : json) : bool :=
  match airports_df st with
  | Some df => in_airport_ids (int_value v) df
  | None => true
  end.

(** The checks in the order the handler runs them on a JSON-object body;
    the value is the text of the first one that fails. *)
Definition first_failure (st : ServerState) (members : list (string * json))
  : option string :=
  match members with
  | [] => Some "No JSON data provided"
  | _ :: _ =>
    match lookup "day_of_week" members, lookup "airport_id" members with
    | Some day_of_week, Some airport_id =>
        if negb (day_of_week_ok day_of_week) then Some day_of_week_msg
        else if negb (isinstance_int airport_id) then Some airport_id_msg
        else if negb (airport_known st airport_id)
             then Some (airport_not_found_msg airport_id)
        else None
    | _, _ => Some missing_fields_msg
    end
  end.

(** The checks the specification lists, in its order. *)
Inductive check : Type :=
| FieldsPresent
| BothIntegers
| DayInRange
| AirportInDirectory.

(** Follows the specification's words: both fields present, then both
    integers, then the day in [1,7], then the airport in the directory. *)
Definition spec_first_failing_check (directory : list Airport)
    (members : list (string * json)) : option check :=
  match lookup "day_of_week" members, lookup "airport_id" members with
  | Some day_of_week, Some airport_id =>
      if negb (isinstance_int day_of_week && isinstance_int airport_id)
      then Some BothIntegers
      else if negb ((1 <=? int_value day_of_week) && (int_value day_of_week <=? 7))
      then Some DayInRange
      else if negb (in_airport_ids (int_value airport_id) directory)
      then Some AirportInDirectory
      else None
  | _, _ => Some FieldsPresent
  end.

(** Which of the specification's checks an error text of the handler
    reports, for a body whose [day_of_week] is [day_of_week]: the
    [day_of_week] text reports a type failure when that value is no integer
    and a range failure when it is one. *)
Definition reported_check (day_of_week : json) (text : string) : option check :=
  if (text =? missing_fields_msg)%string then Some FieldsPresent
  else if (text =? airport_id_msg)%string then Some BothIntegers
  else if (text =? day_of_week_msg)%string
       then Some (if isinstance_int day_of_week then DayInRange else BothIntegers)
  else if prefix "Airport ID " text then Some AirportInDirectory
  else None.

(** The day names in the order of the specification, Monday first. *)
Definition day_names_table : list string :=
  ["Monday"; "Tuesday"; "Wednesday"; "Thursday"; "Friday"; "Saturday"; "Sunday"].

End Checks.

(* ================================================================== *)
(** ** The other views of [server/app.py] and its entry point *)

Module Api.
Import Py Server.

(** [airports_df.sort_values('AirportName')]: ascending by name, [str]
    being ordered by code point.  The order the source gives to rows with
    equal names is not fixed by its sorting method; insertion is used
    here, and nothing below depends on that order. *)
Fixpoint insert_by_name (row : Airport) (sorted : list Airport) : list Airport :=
  match sorted with
  | [] => [row]
  | row' :: rest =>
      if String.leb (AirportName row) (AirportName row') then row :: sorted
      else row' :: insert_by_name row rest
  end.

Fixpoint sort_by_name (rows : list Airport) : list Airport :=
  match rows with
  | [] => []
  | row :: rest => insert_by_name row (sort_by_name rest)
  end.

(** The dictionary built from one row (lines 213-218 and 255-260). *)
Definition airport_json (airport : Airport) : AirportJson :=
  {| id := AirportID airport;
     name := AirportName airport;
     city := City airport;
     state := State airport |}.

Inductive airports_payload : Type :=
| AirportsError (error : error_text)
| AirportsBody (airports : list AirportJson) (total_count : Z).

(** [get_airports] (lines 202-223). *)
Definition get_airports (st : ServerState) : airports_payload * Z :=
  match airports_df st with
  | None => (AirportsError (Msg "Airports data not loaded"), 500)
  | Some df =>
      let sorted_airports := sort_by_name df in
      let airports_list := map airport_json sorted_airports in
      (AirportsBody airports_list (Z.of_nat (length airports_list)), 200)
  end.

(** The ["model_info"] block of the root view. *)
Record HomeInfo : Type := {
  info_type : pyval;
  info_accuracy : pyval;
  info_features : pyval
}.

(** [model_info[k]] *)
Definition info_getitem (info : ModelInfo) (k : string) : outcome pyval :=
  match info_get k info with
  | Some v => Done v
  | None => Raised (KeyError k)
  end.

(** [model_info[k] if model_info else default]: [None] and the empty
    dictionary are false. *)
Definition info_or (st : ServerState) (k default : string) : outcome pyval :=
  match model_info st with
  | Some (entry :: rest) => info_getitem (entry :: rest) k
  | _ => Done (VStr default)
  end.

(** [home] (lines 57-70); the constant entries of the body are left out.
    The view has no [try]: a missing key leaves it as an exception. *)
Definition home (st : ServerState) : outcome HomeInfo :=
  match info_or st "model_type" "Not loaded" with
  | Raised e => Raised e
  | Done type =>
    match info_or st "accuracy" "Unknown" with
    | Raised e => Raised e
    | Done accuracy =>
      match info_or st "features" "Unknown" with
      | Raised e => Raised e
      | Done features =>
          Done {| info_type := type; info_accuracy := accuracy;
                  info_features := features |}
      end
    end
  end.

(** The entry point (lines 281-301): the globals start as [None];
    [app.run] is reached, with the loaded globals, only when
    [load_model_and_data] returns [True]. *)
Definition main (fs : Files) : option ServerState :=
  let (st, loaded) := load_model_and_data fs initial_state in
  if loaded then Some st else None.

(** The prediction [p] with another echoed [day_of_week]. *)
Definition with_day_echo (v : json) (p : Prediction) : Prediction :=
  {| delay_probability := delay_probability p;
     delay_chance_percent := delay_chance_percent p;
     confidence_percent := confidence_percent p;
     no_delay_probability := no_delay_probability p;
     input_day_of_week := v;
     input_day_name := input_day_name p;
     input_airport_id := input_airport_id p;
     input_airport_name := input_airport_name p;
     confidence_level := confidence_level p |}.

Definition map_day_echo (v : json) (r : outcome response) : outcome response :=
  match r with
  | Done (PredictionBody p, code) => Done (PredictionBody (with_day_echo v p), code)
  | other => other
  end.

(** Order of two listed airports by name. *)
Definition name_le (a b : AirportJson) : Prop :=
  String.leb (name a) (name b) = true.

(** The body of the root view before anything is loaded. *)
Definition home_defaults : HomeInfo :=
  {| info_type := VStr "Not loaded";
     info_accuracy := VStr "Unknown";
     info_features := VStr "Unknown" |}.

End Api.

(* ================================================================== *)
(** ** Concrete states and requests used in the examples *)

Module Fixtures.
Import Py Server.

Definition jfk : Airport :=
  {| AirportID := 12478; AirportName := "John F. Kennedy International";
     City := "New York"; State := "NY" |}.

Definition ohare : Airport :=
  {| AirportID := 13930; AirportName := "Chicago O'Hare International";
     City := "Chicago"; State := "IL" |}.

Definition directory : list Airport := [jfk; ohare].

(** A classifier stub: Fridays are likely delayed, other days are not. *)
Definition stub_model : Classifier :=
  {| predict_proba := fun x =>
       if fst x =? 5 then Done (2 # 5, 3 # 5)%Q else Done (9 # 10, 1 # 10)%Q |}.

Definition stub_info : ModelInfo :=
  [ ("features", VStrList ["DayOfWeek"; "OriginAirportID"]);
    ("model_type", VStr "RandomForestClassifier");
    ("accuracy", VFloat (4 # 5)) ].

(** All three globals loaded. *)
Definition ready : ServerState :=
  {| model := Some stub_model; model_info := Some stub_info;
     airports_df := Some directory |}.

(** The model is loaded, the airports table is not. *)
Definition model_only : ServerState :=
  {| model := Some stub_model; model_info := Some stub_info;
     airports_df := None |}.

Definition request (day_of_week airport_id : json) : json :=
  JObj [("day_of_week", day_of_week); ("airport_id", airport_id)].

(** Artifact files whose metadata carries a ["version"] entry. *)
Definition files_with_version (v : Z) : Files :=
  {| flight_delay_model_pkl := Some stub_model;
     model_info_pkl := Some (("version", VInt v) :: stub_info);
     airports_csv := Some directory |}.

(** A classifier that raises on every input. *)
Definition failing_model : Classifier :=
  {| predict_proba := fun _ => Raised (ModelError "not fitted") |}.

Definition failing_state : ServerState :=
  {| model := Some failing_model; model_info := Some stub_info;
     airports_df := Some directory |}.

(** The artifact files as the training script writes them. *)
Definition trained_files (accuracy : Q) : Files :=
  {| flight_delay_model_pkl := Some stub_model;
     model_info_pkl := Some (Training.feature_info accuracy);
     airports_csv := Some directory |}.

(** Artifact files without the airports table. *)
Definition files_without_airports : Files :=
  {| flight_delay_model_pkl := Some stub_model;
     model_info_pkl := Some stub_info;
     airports_csv := None |}.

(** A flight whose origin id cell is missing. *)
Definition flight_no_origin_id : Training.RawRecord :=
  {| Training.DayOfWeek := Some 2;
     Training.OriginAirportID := None;
     Training.DepDel15 := Some 0%Q;
     Training.OriginAirportName := Some "Somewhere";
     Training.OriginCity := None;
     Training.OriginState := None;
     Training.DestAirportID := Some 12478;
     Training.DestAirportName := Some "John F. Kennedy International";
     Training.DestCity := Some "New York";
     Training.DestState := Some "NY" |}.

(** Three raw flights: O'Hare to JFK, JFK to O'Hare with missing cells,
    and one whose [DepDel15] cell holds 2. *)
Definition flight_ord_jfk : Training.RawRecord :=
  {| Training.DayOfWeek := Some 1;
     Training.OriginAirportID := Some 13930;
     Training.DepDel15 := Some 1%Q;
     Training.OriginAirportName := Some "Chicago O'Hare International";
     Training.OriginCity := Some "Chicago";
     Training.OriginState := Some "IL";
     Training.DestAirportID := Some 12478;
     Training.DestAirportName := Some "John F. Kennedy International";
     Training.DestCity := Some "New York";
     Training.DestState := Some "NY" |}.

Definition flight_jfk_ord : Training.RawRecord :=
  {| Training.DayOfWeek := Some 5;
     Training.OriginAirportID := Some 12478;
     Training.DepDel15 := None;
     Training.OriginAirportName := Some "John F. Kennedy International";
     Training.OriginCity := None;
     Training.OriginState := Some "NY";
     Training.DestAirportID := Some 13930;
     Training.DestAirportName := Some "Chicago O'Hare International";
     Training.DestCity := Some "Chicago";
     Training.DestState := Some "IL" |}.

Definition flight_label_two : Training.RawRecord :=
  {| Training.DayOfWeek := Some 3;
     Training.OriginAirportID := Some 13930;
     Training.DepDel15 := Some 2%Q;
     Training.OriginAirportName := Some "Chicago O'Hare International";
     Training.OriginCity := Some "Chicago";
     Training.OriginState := Some "IL";
     Training.DestAirportID := Some 12478;
     Training.DestAirportName := Some "John F. Kennedy International";
     Training.DestCity := Some "New York";
     Training.DestState := Some "NY" |}.

End Fixtures.

(* ================================================================== *)
(** ** Properties of the prediction service *)

Section ServerFacts.
Import Py Server Checks Fixtures.

Lemma predict_compute_run st m d a log :
  predict_compute st m d a log =
  match predict_proba m (int_value d, int_value a) with
  | Done probs =>
      (Done (ok (PredictionBody {|
         delay_probability := snd probs;
         delay_chance_percent := (snd probs * 100)%Q;
         confidence_percent := (py_max (fst probs) [snd probs] * 100)%Q;
         no_delay_probability := fst probs;
         input_day_of_week := d;
         input_day_name := day_names_get (int_value d) "Unknown";
         input_airport_id := a;
         input_airport_name := airport_name_of (airports_df st) (int_value a);
         confidence_level :=
           confidence_level_of (py_max (fst probs) [snd probs] * 100)%Q |})),
       (log ++ [(int_value d, int_value a)])%list)
  | Raised e => (Raised e, (log ++ [(int_value d, int_value a)])%list)
  end.
Proof.
  unfold predict_compute, bind, call_predict_proba, ret.
  destruct (predict_proba m (int_value d, int_value a)); reflexivity.
Qed.

Lemma day_check_agrees v :
  negb (isinstance_int v) || (int_value v <? 1) || (int_value v >? 7)
  = negb (day_of_week_ok v).
Proof.
  unfold day_of_week_ok.
  destruct (isinstance_int v); simpl; [| reflexivity].
  rewrite Z.gtb_ltb, negb_andb, <- Z.ltb_antisym, <- Z.ltb_antisym.
  reflexivity.
Qed.

(** On a JSON-object body the [try] block is the first failing check, or
    the computation when there is none. *)
Lemma predict_body_obj st m members log :
  model st = Some m ->
  predict_body st (JObj members) log =
  match first_failure st members with
  | Some text => (Done (bad_request text), log)
  | None =>
      match lookup "day_of_week" members, lookup "airport_id" members with
      | Some d, Some a => predict_compute st m d a log
      | _, _ => (Done (bad_request missing_fields_msg), log)
      end
  end.
Proof.
  intros Hm. unfold predict_body, first_failure. rewrite Hm.
  destruct members as [| kv rest]; [reflexivity |].
  set (ms := kv :: rest).
  change (truthy (JObj ms)) with true. cbn [negb].
  unfold bind, lift, py_in, py_getitem, ret.
  destruct (lookup "day_of_week" ms) as [d |]; [| reflexivity].
  cbn [negb].
  destruct (lookup "airport_id" ms) as [a |]; [| reflexivity].
  cbn [negb]. rewrite day_check_agrees.
  destruct (negb (day_of_week_ok d)); [reflexivity |].
  destruct (negb (isinstance_int a)); [reflexivity |].
  unfold airport_known.
  destruct (airports_df st) as [df |].
  - destruct (negb (in_airport_ids (int_value a) df)); reflexivity.
  - reflexivity.
Qed.

Lemma handle_predict_obj st m members :
  model st = Some m ->
  handle_predict st (JObj members) =
  match first_failure st members with
  | Some text => (Done (bad_request text), [])
  | None =>
      match lookup "day_of_week" members, lookup "airport_id" members with
      | Some d, Some a =>
          try_except (predict_compute st m d a)
                     (fun e => (ErrorBody (PredictionFailed e), 500)) []
      | _, _ => (Done (bad_request missing_fields_msg), [])
      end
  end.
Proof.
  intros Hm. unfold handle_predict, predict_delay, try_except.
  rewrite (predict_body_obj st m members [] Hm).
  destruct (first_failure st members); [reflexivity |].
  destruct (lookup "day_of_week" members); [| reflexivity].
  destruct (lookup "airport_id" members); reflexivity.
Qed.

(** A body that is no JSON object never reaches the classifier: it is
    answered with an error and the invocation log is untouched. *)
Lemma predict_delay_non_object st data log :
  (forall members, data <> JObj members) ->
  exists err code, predict_delay st data log = (Done (ErrorBody err, code), log).
Proof.
  intros Hdata. unfold predict_delay, try_except, predict_body.
  destruct (model st) as [m |]; [| unfold ret; eauto].
  destruct data as [| b | z | q | s | items | members];
    try (exfalso; eapply Hdata; reflexivity);
    unfold bind, lift, ret, py_in, py_getitem, bad_request;
    cbn [truthy negb];
    repeat match goal with
           | |- context [if ?c then _ else _] => destruct c; cbn [negb]
           | |- context [match ?l with [] => _ | _ :: _ => _ end] => destruct l
           end;
    eauto.
Qed.

(** Rewrites a run [H] of [handle_predict] on a body that is visibly no
    JSON object into the error response it gives. *)
Ltac non_object_body H :=
  match type of H with
  | handle_predict ?st ?data = _ =>
      let err := fresh "err" in
      let c := fresh "c" in
      let E := fresh "E" in
      destruct (predict_delay_non_object st data []) as (err & c & E);
      [ intros ?; discriminate
      | unfold handle_predict in H; rewrite E in H ]
  end.

Lemma first_failure_none st members :
  first_failure st members = None ->
  exists d a,
    lookup "day_of_week" members = Some d /\
    lookup "airport_id" members = Some a /\
    day_of_week_ok d = true /\
    isinstance_int a = true /\
    airport_known st a = true.
Proof.
  unfold first_failure.
  destruct members as [| kv rest]; [discriminate |].
  destruct (lookup "day_of_week" (kv :: rest)) as [d |]; [| discriminate].
  destruct (lookup "airport_id" (kv :: rest)) as [a |]; [| discriminate].
  destruct (day_of_week_ok d) eqn:Hday; [| discriminate].
  destruct (isinstance_int a) eqn:Hint; [| discriminate].
  destruct (airport_known st a) eqn:Hknown; [| discriminate].
  intros _. exists d, a. repeat split; reflexivity || assumption.
Qed.

(** Every success response of [predict_delay] comes from a JSON-object body
    that passed all checks, and from exactly one classifier invocation. *)
Lemma predict_success_inv st data p code log :
  handle_predict st data = (Done (PredictionBody p, code), log) ->
  exists m members d a probs,
    model st = Some m /\
    data = JObj members /\
    lookup "day_of_week" members = Some d /\
    lookup "airport_id" members = Some a /\
    first_failure st members = None /\
    predict_proba m (int_value d, int_value a) = Done probs /\
    code = 200 /\
    log = [(int_value d, int_value a)] /\
    p = {| delay_probability := snd probs;
           delay_chance_percent := (snd probs * 100)%Q;
           confidence_percent := (py_max (fst probs) [snd probs] * 100)%Q;
           no_delay_probability := fst probs;
           input_day_of_week := d;
           input_day_name := day_names_get (int_value d) "Unknown";
           input_airport_id := a;
           input_airport_name := airport_name_of (airports_df st) (int_value a);
           confidence_level :=
             confidence_level_of (py_max (fst probs) [snd probs] * 100)%Q |}.
Proof.
  intros H.
  destruct (model st) as [m |] eqn:Hm.
  2:{ unfold handle_predict, predict_delay, try_except, predict_body in H.
      rewrite Hm in H. discriminate H. }
  destruct data as [| b | z | q | s | items | members].
  1-6: non_object_body H; discriminate H.
  rewrite (handle_predict_obj st m members Hm) in H.
  destruct (first_failure st members) as [text |] eqn:Hff; [discriminate H |].
  destruct (first_failure_none st members Hff) as (d & a & Hd & Ha & _).
  rewrite Hd, Ha in H. unfold try_except in H.
  rewrite predict_compute_run in H.
  destruct (predict_proba m (int_value d, int_value a)) as [probs | e] eqn:Hp;
    [| discriminate H].
  unfold ok in H. injection H as Hp' Hc Hl.
  exists m, members, d, a, probs.
  repeat split; auto.
Qed.

(** *** The scenarios of the API test script, on the stub model *)

Example predict_monday_ohare :
  handle_predict ready (request (JInt 1) (JInt 13930))
  = (Done (PredictionBody
             {| delay_probability := 1 # 10;
                delay_chance_percent := (1 # 10) * 100;
                confidence_percent := (9 # 10) * 100;
                no_delay_probability := 9 # 10;
                input_day_of_week := JInt 1;
                input_day_name := "Monday";
                input_airport_id := JInt 13930;
                input_airport_name := "Chicago O'Hare International";
                confidence_level := "High" |}, 200),
     [(1, 13930)]).
Proof. reflexivity. Qed.

Example predict_invalid_day :
  handle_predict ready (request (JInt 8) (JInt 13930))
  = (Done (bad_request day_of_week_msg), []).
Proof. reflexivity. Qed.

Example predict_missing_field :
  handle_predict ready (JObj [("day_of_week", JInt 1)])
  = (Done (bad_request missing_fields_msg), []).
Proof. reflexivity. Qed.

Example predict_unknown_airport :
  handle_predict ready (request (JInt 5) (JInt 999999))
  = (Done (bad_request "Airport ID 999999 not found in database"), []).
Proof. reflexivity. Qed.

Example predict_empty_body :
  handle_predict ready (JObj [])
  = (Done (bad_request "No JSON data provided"), []).
Proof. reflexivity. Qed.

(** [True] is an [int] instance: it is accepted as day 1. *)
Example predict_day_true :
  exists p,
    handle_predict ready (request (JBool true) (JInt 12478))
    = (Done (PredictionBody p, 200), [(1, 12478)]) /\
    input_day_name p = "Monday".
Proof. eexists. split; reflexivity. Qed.

(** A JSON array is no mapping: subscripting it raises inside [try]. *)
Example predict_array_body :
  handle_predict ready (JArr [JStr "day_of_week"; JStr "airport_id"])
  = (Done (ErrorBody (PredictionFailed
             (TypeError "list indices must be integers or slices, not str")),
           500), []).
Proof. reflexivity. Qed.

(** *** Validation order *)

(** C1, as stated, fails: on a body whose [day_of_week] is the integer 8
    and whose [airport_id] is a string, the first failing check in the
    stated order is "both values are integers", while the handler reports
    the [day_of_week] text, that is here the range failure. *)
Lemma validation_order_counterexample :
  let members := [("day_of_week", JInt 8); ("airport_id", JStr "ORD")] in
  spec_first_failing_check directory members = Some BothIntegers /\
  handle_predict ready (JObj members) = (Done (bad_request day_of_week_msg), []) /\
  reported_check (JInt 8) day_of_week_msg = Some DayInRange /\
  reported_check (JInt 8) day_of_week_msg
    <> spec_first_failing_check directory members.
Proof.
  cbv zeta. repeat split; try reflexivity.
  vm_compute. discriminate.
Qed.

(** C1 (amended): with the model loaded and a JSON-object body, the checks
    run in the order: body non-empty, both fields present, [day_of_week] an
    integer within 1..7 (one check with one text), [airport_id] an integer,
    and, only when the airports table is loaded, [airport_id] among its
    ids.  The first check that fails is answered with status 400 and its
    text, and the classifier is not invoked; when none fails the classifier
    is invoked exactly once, on the request's feature row.  Whatever the
    body, a response with status 400 leaves the classifier uninvoked. *)
Theorem predict_validation_order st m members :
  model st = Some m ->
  match first_failure st members with
  | Some text =>
      handle_predict st (JObj members) = (Done (bad_request text), [])
  | None =>
      exists d a,
        lookup "day_of_week" members = Some d /\
        lookup "airport_id" members = Some a /\
        snd (handle_predict st (JObj members)) = [(int_value d, int_value a)]
  end
  /\ (forall data body log,
        handle_predict st data = (Done (body, 400), log) -> log = []).
Proof.
  intros Hm. split.
  - rewrite (handle_predict_obj st m members Hm).
    destruct (first_failure st members) as [text |] eqn:Hff; [reflexivity |].
    destruct (first_failure_none st members Hff) as (d & a & Hd & Ha & _).
    exists d, a. rewrite Hd, Ha. repeat split.
    unfold try_except. rewrite predict_compute_run.
    destruct (predict_proba m (int_value d, int_value a)); reflexivity.
  - intros data body log H.
    destruct data as [| b | z | q | s | items | ms].
    1-6: non_object_body H; injection H as _ _ Hl; symmetry; exact Hl.
    rewrite (handle_predict_obj st m ms Hm) in H.
    destruct (first_failure st ms) as [text |] eqn:Hff.
    + injection H as _ Hl. symmetry; exact Hl.
    + destruct (first_failure_none st ms Hff) as (d & a & Hd & Ha & _).
      rewrite Hd, Ha in H. unfold try_except in H.
      rewrite predict_compute_run in H.
      destruct (predict_proba m (int_value d, int_value a)); discriminate H.
Qed.

Lemma predict_validation_order_witness :
  handle_predict ready (request (JInt 8) (JStr "ORD"))
  = (Done (bad_request day_of_week_msg), []).
Proof.
  exact (proj1 (predict_validation_order ready stub_model
                  [("day_of_week", JInt 8); ("airport_id", JStr "ORD")]
                  eq_refl)).
Defined.

(** *** The service before the model is loaded *)

(** C2, as stated, fails: before anything is loaded a predict request is
    answered with status 500, not 503. *)
Lemma unready_status_counterexample :
  handle_predict initial_state (request (JInt 1) (JInt 13930))
  = (Done (ErrorBody (Msg "Model not loaded"), 500), []) /\
  ~ (exists body log,
       handle_predict initial_state (request (JInt 1) (JInt 13930))
       = (Done (body, 503), log)).
Proof.
  split; [reflexivity |].
  intros (body & log & H). discriminate H.
Qed.

(** C2 (amended): every predict request issued while the model is not
    loaded is rejected with status 500 and the text "Model not loaded",
    and the classifier is not invoked. *)
Theorem predict_rejected_without_model st data :
  model st = None ->
  handle_predict st data = (Done (ErrorBody (Msg "Model not loaded"), 500), []).
Proof.
  intros Hm. unfold handle_predict, predict_delay, try_except, predict_body.
  rewrite Hm. reflexivity.
Qed.

Lemma predict_rejected_without_model_witness :
  handle_predict initial_state (request (JInt 5) (JInt 12478))
  = (Done (ErrorBody (Msg "Model not loaded"), 500), []).
Proof.
  exact (predict_rejected_without_model initial_state
           (request (JInt 5) (JInt 12478)) eq_refl).
Defined.

(** *** The airports table is optional for [predict_delay] *)

(** C9: with the model loaded and the airports table not loaded, a request
    with a valid [day_of_week] and any integer [airport_id] passes
    validation: the classifier is invoked on the request's feature row,
    the answer is never a 400, and the response built from the
    classifier's probabilities names the airport "Unknown". *)
Theorem predict_without_airports_table st m members d a :
  model st = Some m ->
  airports_df st = None ->
  lookup "day_of_week" members = Some d ->
  lookup "airport_id" members = Some a ->
  day_of_week_ok d = true ->
  isinstance_int a = true ->
  snd (handle_predict st (JObj members)) = [(int_value d, int_value a)] /\
  (forall body, fst (handle_predict st (JObj members)) <> Done (body, 400)) /\
  (forall probs,
     predict_proba m (int_value d, int_value a) = Done probs ->
     exists p,
       fst (handle_predict st (JObj members)) = Done (PredictionBody p, 200) /\
       input_airport_name p = "Unknown" /\
       delay_probability p = snd probs /\
       no_delay_probability p = fst probs).
Proof.
  intros Hm Hdf Hd Ha Hday Hint.
  assert (Hff : first_failure st members = None).
  { unfold first_failure. destruct members as [| kv rest]; [discriminate Hd |].
    rewrite Hd, Ha, Hday, Hint. unfold airport_known. rewrite Hdf. reflexivity. }
  rewrite (handle_predict_obj st m members Hm), Hff, Hd, Ha.
  unfold try_except. rewrite predict_compute_run.
  destruct (predict_proba m (int_value d, int_value a)) as [probs | e].
  - repeat split.
    + intros body H. discriminate H.
    + intros probs' [= <-]. eexists. split; [reflexivity |].
      cbn. rewrite Hdf. repeat split.
  - repeat split.
    + intros body H. discriminate H.
    + intros probs' H. discriminate H.
Qed.

Lemma predict_without_airports_table_witness :
  snd (handle_predict model_only (request (JInt 5) (JInt 999999)))
  = [(5, 999999)] /\
  exists p,
    fst (handle_predict model_only (request (JInt 5) (JInt 999999)))
    = Done (PredictionBody p, 200) /\
    input_airport_name p = "Unknown".
Proof.
  destruct (predict_without_airports_table model_only stub_model
              [("day_of_week", JInt 5); ("airport_id", JInt 999999)]
              (JInt 5) (JInt 999999)
              eq_refl eq_refl eq_refl eq_refl eq_refl eq_refl)
    as (Hlog & _ & Hok).
  split; [exact Hlog |].
  destruct (Hok (2 # 5, 3 # 5)%Q eq_refl) as (p & Hp & Hname & _).
  exists p. split; assumption.
Defined.

(** *** The numbers of a success response *)

Lemma py_max_pair p0 p1 : (py_max p0 [p1] == Qmax p1 p0)%Q.
Proof.
  unfold py_max, max_from.
  destruct (Qle_bool p1 p0) eqn:E.
  - apply Qle_bool_iff in E. symmetry. apply Q.max_r. exact E.
  - symmetry. apply Q.max_l. apply Qlt_le_weak, Qnot_le_lt.
    intros H. apply Qle_bool_iff in H. congruence.
Qed.

(** C4: in every success response, [confidence_percent] is the larger of
    [delay_probability] and [no_delay_probability] times 100, these two
    being the class probabilities the classifier gave for the request's
    feature row. *)
Theorem confidence_is_max_probability_percent st data p code log :
  handle_predict st data = (Done (PredictionBody p, code), log) ->
  (confidence_percent p
   == Qmax (delay_probability p) (no_delay_probability p) * 100)%Q /\
  exists m members d a p0 p1,
    model st = Some m /\
    data = JObj members /\
    lookup "day_of_week" members = Some d /\
    lookup "airport_id" members = Some a /\
    predict_proba m (int_value d, int_value a) = Done (p0, p1) /\
    delay_probability p = p1 /\
    no_delay_probability p = p0.
Proof.
  intros H.
  destruct (predict_success_inv st data p code log H)
    as (m & members & d & a & probs & Hm & Hdata & Hd & Ha & _ & Hp & _ & _ & ->).
  cbn [confidence_percent delay_probability no_delay_probability].
  split.
  - rewrite py_max_pair. reflexivity.
  - destruct probs as [p0 p1]. exists m, members, d, a, p0, p1.
    repeat split; assumption.
Qed.

Lemma confidence_is_max_probability_percent_witness :
  exists p,
    fst (handle_predict ready (request (JInt 5) (JInt 13930)))
    = Done (PredictionBody p, 200) /\
    (confidence_percent p
     == Qmax (delay_probability p) (no_delay_probability p) * 100)%Q.
Proof.
  eexists. split; [reflexivity |].
  exact (proj1 (confidence_is_max_probability_percent ready
                  (request (JInt 5) (JInt 13930)) _ 200 _ eq_refl)).
Defined.

(** *** Shape of a success response *)

Lemma in_airport_ids_first a df :
  in_airport_ids a df = true ->
  exists row, hd_error (rows_with_id a df) = Some row /\
              In row df /\ AirportID row = a.
Proof.
  unfold in_airport_ids, rows_with_id.
  induction df as [| r df IH]; cbn [existsb filter]; [discriminate |].
  destruct (AirportID r =? a) eqn:E.
  - intros _. exists r. cbn. apply Z.eqb_eq in E. auto.
  - cbn [orb]. intros H. destruct (IH H) as (row & Hhd & Hin & Hid).
    exists row. cbn [In]. auto.
Qed.

Lemma confidence_level_cases c :
  ((80 < c)%Q -> confidence_level_of c = "High") /\
  ((c <= 80)%Q -> (60 < c)%Q -> confidence_level_of c = "Medium") /\
  ((c <= 60)%Q -> confidence_level_of c = "Low").
Proof.
  unfold confidence_level_of.
  destruct (Qle_bool c 80) eqn:E80; destruct (Qle_bool c 60) eqn:E60; cbn [negb];
    try (apply Qle_bool_iff in E80); try (apply Qle_bool_iff in E60);
    repeat split; intros; try reflexivity; exfalso.
  all: try (apply (Qlt_not_le _ _ H); assumption).
  all: try (apply (Qlt_not_le _ _ H0); assumption).
  all: try (assert (Qle_bool c 60 = true) by (apply Qle_bool_iff; assumption);
            congruence).
  all: try (assert (Qle_bool c 80 = true) by (apply Qle_bool_iff; assumption);
            congruence).
  all: try (assert (Qle_bool c 80 = true)
              by (apply Qle_bool_iff; apply Qle_trans with 60%Q;
                  [assumption | discriminate]);
            congruence).
Qed.

Lemma day_names_get_table d :
  1 <= d <= 7 ->
  nth_error day_names_table (Z.to_nat (d - 1)) = Some (day_names_get d "Unknown").
Proof.
  intros H.
  assert (d = 1 \/ d = 2 \/ d = 3 \/ d = 4 \/ d = 5 \/ d = 6 \/ d = 7) as Hd by lia.
  repeat (destruct Hd as [-> | Hd]; [reflexivity |]). subst d. reflexivity.
Qed.

(** C7: every success response carries [delay_chance_percent] equal to
    [delay_probability] times 100, echoes the two inputs, names the day by
    the table Monday (1) to Sunday (7), names the airport by the first row
    of the airports table with the requested id, and grades the confidence
    "High" above 80, "Medium" above 60 and "Low" otherwise. *)
Theorem predict_response_shape st data p code log :
  handle_predict st data = (Done (PredictionBody p, code), log) ->
  code = 200 /\
  delay_chance_percent p = (delay_probability p * 100)%Q /\
  (exists members,
     data = JObj members /\
     lookup "day_of_week" members = Some (input_day_of_week p) /\
     lookup "airport_id" members = Some (input_airport_id p)) /\
  1 <= int_value (input_day_of_week p) <= 7 /\
  nth_error day_names_table (Z.to_nat (int_value (input_day_of_week p) - 1))
    = Some (input_day_name p) /\
  input_airport_name p
    = airport_name_of (airports_df st) (int_value (input_airport_id p)) /\
  (forall df, airports_df st = Some df ->
     exists row,
       hd_error (rows_with_id (int_value (input_airport_id p)) df) = Some row /\
       In row df /\
       AirportID row = int_value (input_airport_id p) /\
       input_airport_name p = AirportName row) /\
  ((80 < confidence_percent p)%Q -> confidence_level p = "High") /\
  ((confidence_percent p <= 80)%Q -> (60 < confidence_percent p)%Q ->
     confidence_level p = "Medium") /\
  ((confidence_percent p <= 60)%Q -> confidence_level p = "Low").
Proof.
  intros H.
  destruct (predict_success_inv st data p code log H)
    as (m & members & d & a & probs & Hm & Hdata & Hd & Ha & Hff & Hp & Hc & _ & ->).
  destruct (first_failure_none st members Hff)
    as (d' & a' & Hd' & Ha' & Hday & Hint & Hknown).
  rewrite Hd in Hd'. rewrite Ha in Ha'.
  injection Hd' as <-. injection Ha' as <-.
  assert (Hrange : 1 <= int_value d <= 7).
  { unfold day_of_week_ok in Hday.
    apply andb_prop in Hday as [Hday H7]. apply andb_prop in Hday as [_ H1].
    apply Z.leb_le in H1, H7. lia. }
  cbn [delay_chance_percent delay_probability input_day_of_week input_day_name
       input_airport_id input_airport_name confidence_level confidence_percent].
  split; [exact Hc |].
  split; [reflexivity |].
  split; [exists members; auto |].
  split; [exact Hrange |].
  split; [apply day_names_get_table; exact Hrange |].
  split; [reflexivity |].
  split.
  - intros df Hdf. unfold airport_known in Hknown. rewrite Hdf in Hknown.
    destruct (in_airport_ids_first _ _ Hknown) as (row & Hhd & Hin & Hid).
    exists row. repeat split; try assumption.
    rewrite Hdf. unfold airport_name_of.
    destruct (rows_with_id (int_value a) df) as [| r rest]; [discriminate Hhd |].
    cbn in Hhd. injection Hhd as ->. reflexivity.
  - apply confidence_level_cases.
Qed.

Lemma predict_response_shape_witness :
  exists p,
    fst (handle_predict ready (request (JInt 1) (JInt 13930)))
    = Done (PredictionBody p, 200) /\
    delay_chance_percent p = (delay_probability p * 100)%Q /\
    input_day_name p = "Monday" /\
    input_airport_name p = "Chicago O'Hare International" /\
    confidence_level p = "High".
Proof.
  eexists. split; [reflexivity |].
  pose proof (predict_response_shape ready (request (JInt 1) (JInt 13930))
                _ 200 _ eq_refl) as (_ & Hpct & _ & _ & _ & _ & _ & Hhigh & _).
  split; [exact Hpct |].
  split; [reflexivity |].
  split; [reflexivity |].
  apply Hhigh. reflexivity.
Defined.

(** *** Range of the confidence *)

(** C10: when the two class probabilities of a success response are
    non-negative and sum to 1, [confidence_percent] is at least 50, so the
    "Low" grade is met only with [confidence_percent] between 50 and 60. *)
Theorem confidence_at_least_half st data p code log :
  handle_predict st data = (Done (PredictionBody p, code), log) ->
  (0 <= delay_probability p)%Q ->
  (0 <= no_delay_probability p)%Q ->
  (delay_probability p + no_delay_probability p == 1)%Q ->
  (50 <= confidence_percent p)%Q /\
  (confidence_level p = "Low" ->
   (50 <= confidence_percent p)%Q /\ (confidence_percent p <= 60)%Q).
Proof.
  intros H.
  destruct (predict_success_inv st data p code log H)
    as (m & members & d & a & probs & _ & _ & _ & _ & _ & _ & _ & _ & ->).
  destruct probs as [p0 p1].
  cbn [delay_probability no_delay_probability confidence_percent
       confidence_level fst snd].
  intros H1 H0 Hsum.
  assert (Hhalf : (50 <= py_max p0 [p1] * 100)%Q).
  { unfold py_max, max_from.
    destruct (Qle_bool p1 p0) eqn:E.
    - apply Qle_bool_iff in E. lra.
    - assert (~ (p1 <= p0)%Q) as Hn
        by (intros Hle; apply Qle_bool_iff in Hle; congruence).
      apply Qnot_le_lt in Hn. lra. }
  split; [exact Hhalf |].
  intros Hlow. split; [exact Hhalf |].
  unfold confidence_level_of in Hlow.
  destruct (Qle_bool (py_max p0 [p1] * 100) 80); cbn [negb] in Hlow;
    [| discriminate Hlow].
  destruct (Qle_bool (py_max p0 [p1] * 100) 60) eqn:E60; cbn [negb] in Hlow;
    [| discriminate Hlow].
  apply Qle_bool_iff in E60. exact E60.
Qed.

Lemma confidence_at_least_half_witness :
  exists p,
    fst (handle_predict ready (request (JInt 5) (JInt 12478)))
    = Done (PredictionBody p, 200) /\
    confidence_level p = "Low" /\
    (50 <= confidence_percent p)%Q /\ (confidence_percent p <= 60)%Q.
Proof.
  eexists. split; [reflexivity |].
  split; [reflexivity |].
  apply (confidence_at_least_half ready (request (JInt 5) (JInt 12478))
           _ 200 _ eq_refl).
  - discriminate.
  - discriminate.
  - reflexivity.
  - reflexivity.
Defined.

(** *** [get_airport_by_id] *)

Lemma in_airport_ids_In a df :
  in_airport_ids a df = true <-> In a (map AirportID df).
Proof.
  unfold in_airport_ids. rewrite existsb_exists, in_map_iff.
  split; intros (row & H1 & H2).
  - exists row. apply Z.eqb_eq in H2. auto.
  - exists row. rewrite Z.eqb_eq. auto.
Qed.

(** C8: with the airports table loaded, an id that is not in the table is
    answered with status 404 (never 400), and an id that is in the table
    is answered with the record of the first row carrying it. *)
Theorem get_airport_by_id_found_or_404 st df airport_id :
  airports_df st = Some df ->
  (~ In airport_id (map AirportID df) ->
   get_airport_by_id st airport_id
   = (ErrorBody (Msg ("Airport with ID " ++ str_int airport_id ++ " not found")),
      404)) /\
  (In airport_id (map AirportID df) ->
   exists row,
     hd_error (rows_with_id airport_id df) = Some row /\
     In row df /\
     AirportID row = airport_id /\
     get_airport_by_id st airport_id
     = (AirportBody {| id := AirportID row; name := AirportName row;
                       city := City row; state := State row |}, 200)) /\
  snd (get_airport_by_id st airport_id) <> 400.
Proof.
  intros Hdf. unfold get_airport_by_id. rewrite Hdf.
  repeat split.
  - intros Hnot.
    destruct (rows_with_id airport_id df) as [| row rest] eqn:E; [reflexivity |].
    exfalso. apply Hnot.
    assert (In row (rows_with_id airport_id df)) as Hin by (rewrite E; left; reflexivity).
    unfold rows_with_id in Hin. apply filter_In in Hin as [Hin Hid].
    apply Z.eqb_eq in Hid. apply in_map_iff. exists row. auto.
  - intros Hin. apply in_airport_ids_In in Hin.
    destruct (in_airport_ids_first _ _ Hin) as (row & Hhd & Hrow & Hid).
    exists row. repeat split; try assumption.
    destruct (rows_with_id airport_id df) as [| r rest]; [discriminate Hhd |].
    cbn in Hhd. injection Hhd as ->. reflexivity.
  - destruct (rows_with_id airport_id df); cbn; discriminate.
Qed.

Lemma get_airport_by_id_found_or_404_witness :
  get_airport_by_id ready 999999
  = (ErrorBody (Msg "Airport with ID 999999 not found"), 404) /\
  get_airport_by_id ready 13930
  = (AirportBody {| id := 13930; name := "Chicago O'Hare International";
                    city := "Chicago"; state := "IL" |}, 200).
Proof.
  split.
  - apply (proj1 (get_airport_by_id_found_or_404 ready directory 999999 eq_refl)).
    cbn. intros [H | [H | []]]; discriminate H.
  - destruct (get_airport_by_id_found_or_404 ready directory 13930 eq_refl)
      as (_ & Hfound & _).
    destruct Hfound as (row & Hhd & _ & _ & Hresp).
    + cbn. right. left. reflexivity.
    + cbn in Hhd. injection Hhd as <-. exact Hresp.
Defined.

(** *** Loading the artifacts *)

(** C3, as stated, fails: the metadata written by the training script has
    no entry that records a format version, and metadata files recording
    two different versions are both loaded with success. *)
Lemma artifact_version_counterexample :
  map fst (Training.feature_info (4 # 5))
  = ["features"; "model_type"; "accuracy"; "description"] /\
  info_get "version" (Training.feature_info (4 # 5)) = None /\
  snd (load_model_and_data (files_with_version 1) initial_state) = true /\
  snd (load_model_and_data (files_with_version 2) initial_state) = true /\
  model_info_pkl (files_with_version 1) <> model_info_pkl (files_with_version 2).
Proof.
  repeat split. discriminate.
Qed.

(** C3 (amended): the metadata that is saved has the keys "features",
    "model_type", "accuracy" and "description" and records no format
    version; loading compares no version: it succeeds exactly when the
    model file, the metadata file and the airports table can all be read,
    and then the three globals hold what the files hold, whatever the
    metadata says. *)
Theorem load_checks_no_version accuracy fs st :
  map fst (Training.feature_info accuracy)
  = ["features"; "model_type"; "accuracy"; "description"] /\
  (snd (load_model_and_data fs st) = true <->
   exists m info rows,
     flight_delay_model_pkl fs = Some m /\
     model_info_pkl fs = Some info /\
     airports_csv fs = Some rows /\
     fst (load_model_and_data fs st)
     = {| model := Some m; model_info := Some info; airports_df := Some rows |}).
Proof.
  split; [reflexivity |].
  unfold load_model_and_data.
  destruct (flight_delay_model_pkl fs) as [m |];
    destruct (model_info_pkl fs) as [info |];
    destruct (airports_csv fs) as [rows |]; cbn [fst snd];
    split; try discriminate; try (intros (? & ? & ? & ? & ? & ? & ?); discriminate).
  - intros _. exists m, info, rows. repeat split.
  - reflexivity.
Qed.

End ServerFacts.

(* ================================================================== *)
(** ** Properties of the training script *)

Section TrainingFacts.
Import Py Training Fixtures.

(** *** Cleaning *)

(** The cleaned table has one row per raw row, and each cell is the raw
    cell, or zero where the raw cell is missing. *)
Lemma df_clean_rows (df : list RawRecord) :
  length (df_clean df) = length df /\
  Forall2 (fun (raw : RawRecord) (clean : CleanRecord) =>
             DayOfWeek clean = fillna_int (DayOfWeek raw) /\
             OriginAirportID clean = fillna_int (OriginAirportID raw) /\
             DepDel15 clean = astype_int (fillna_float (DepDel15 raw)) /\
             OriginAirportName clean = fillna_text (OriginAirportName raw) /\
             OriginCity clean = fillna_text (OriginCity raw) /\
             OriginState clean = fillna_text (OriginState raw) /\
             DestAirportID clean = fillna_int (DestAirportID raw) /\
             DestAirportName clean = fillna_text (DestAirportName raw) /\
             DestCity clean = fillna_text (DestCity raw) /\
             DestState clean = fillna_text (DestState raw))
          df (df_clean df).
Proof.
  unfold df_clean, fillna. split.
  - rewrite !length_map. reflexivity.
  - induction df as [| r df IH]; cbn [map]; constructor.
    + cbn. repeat split.
    + exact IH.
Qed.

(** A label that is 0, 1 or missing in the raw table is 0 or 1 after
    cleaning. *)
Lemma df_clean_binary_labels (df : list RawRecord) :
  Forall (fun raw : RawRecord =>
            DepDel15 raw = None \/ DepDel15 raw = Some 0%Q
            \/ DepDel15 raw = Some 1%Q) df ->
  Forall (fun label => label = 0 \/ label = 1) (y (df_clean df)).
Proof.
  unfold y, df_clean, fillna. rewrite !map_map.
  induction 1 as [| r df Hr _ IH]; cbn [map]; constructor; [| exact IH].
  cbn. destruct Hr as [-> | [-> | ->]]; cbn; auto.
Qed.

(** C6 fails on the code: the script's comment reads "Ensure DepDel15 is
    binary (0 or 1)", but [astype(int)] keeps any integer.  A raw row
    whose [DepDel15] is 2 is cleaned to the label 2. *)
Theorem df_clean_label_not_binary :
  y (df_clean [flight_ord_jfk; flight_jfk_ord; flight_label_two]) = [1; 0; 2] /\
  ~ Forall (fun label => label = 0 \/ label = 1)
           (y (df_clean [flight_ord_jfk; flight_jfk_ord; flight_label_two])).
Proof.
  split; [reflexivity |].
  intros H. cbn in H.
  inversion H as [| ? ? _ H1]; subst.
  inversion H1 as [| ? ? _ H2]; subst.
  inversion H2 as [| ? ? Hbad _]; subst.
  destruct Hbad as [Hbad | Hbad]; discriminate Hbad.
Qed.

(** *** The airports table *)

Lemma insert_by_id_perm r rows : Permutation (insert_by_id r rows) (r :: rows).
Proof.
  induction rows as [| r' rows IH]; cbn [insert_by_id]; [reflexivity |].
  destruct (AirportID r <=? AirportID r'); [reflexivity |].
  rewrite IH. apply perm_swap.
Qed.

Lemma sort_values_perm rows : Permutation (sort_values rows) rows.
Proof.
  induction rows as [| r rows IH]; cbn [sort_values]; [reflexivity |].
  rewrite insert_by_id_perm. constructor. exact IH.
Qed.

Lemma insert_by_id_sorted r rows :
  Sorted id_le rows -> Sorted id_le (insert_by_id r rows).
Proof.
  induction rows as [| r' rows IH]; cbn [insert_by_id]; intros Hs.
  - repeat constructor.
  - destruct (AirportID r <=? AirportID r') eqn:E.
    + constructor; [exact Hs |]. constructor. apply Z.leb_le. exact E.
    + apply Z.leb_gt in E. apply Sorted_inv in Hs as [Hs Hhd].
      constructor; [apply IH; exact Hs |].
      destruct rows as [| r'' rows]; cbn [insert_by_id].
      * constructor. unfold id_le. lia.
      * destruct (AirportID r <=? AirportID r'').
        -- constructor. unfold id_le. lia.
        -- constructor. apply HdRel_inv in Hhd. exact Hhd.
Qed.

Lemma sort_values_sorted rows : StronglySorted id_le (sort_values rows).
Proof.
  apply Sorted_StronglySorted.
  - intros a b c. unfold id_le. lia.
  - induction rows as [| r rows IH]; cbn [sort_values].
    + constructor.
    + apply insert_by_id_sorted. exact IH.
Qed.

Lemma rows_with_id_perm a rows rows' :
  Permutation rows rows' ->
  Permutation (rows_with_id a rows) (rows_with_id a rows').
Proof.
  unfold rows_with_id.
  induction 1 as [| r l l' _ IH | r1 r2 l | l1 l2 l3 _ IH1 _ IH2];
    cbn [filter].
  - reflexivity.
  - destruct (AirportID r =? a); [constructor |]; exact IH.
  - destruct (AirportID r1 =? a); destruct (AirportID r2 =? a);
      try reflexivity. apply perm_swap.
  - rewrite IH1. exact IH2.
Qed.

Lemma drop_duplicates_seen_rows_with_id a rows : forall seen,
  rows_with_id a (drop_duplicates_seen seen rows)
  = if existsb (Z.eqb a) seen then [] else first_only (rows_with_id a rows).
Proof.
  unfold rows_with_id.
  induction rows as [| r rows IH]; intros seen;
    cbn [drop_duplicates_seen filter first_only].
  - destruct (existsb (Z.eqb a) seen); reflexivity.
  - destruct (existsb (Z.eqb (AirportID r)) seen) eqn:Eseen.
    + rewrite IH. destruct (AirportID r =? a) eqn:Ea; [| reflexivity].
      apply Z.eqb_eq in Ea. subst a. rewrite Eseen. reflexivity.
    + cbn [filter]. rewrite IH. cbn [existsb].
      destruct (AirportID r =? a) eqn:Ea.
      * apply Z.eqb_eq in Ea. subst a.
        rewrite Z.eqb_refl, Eseen. reflexivity.
      * rewrite Z.eqb_sym, Ea. reflexivity.
Qed.

Lemma all_airports_rows_with_id clean a :
  rows_with_id a (all_airports clean)
  = first_only (rows_with_id a (concat clean)).
Proof.
  unfold all_airports, drop_duplicates.
  pose proof (rows_with_id_perm a _ _
                (sort_values_perm (drop_duplicates_seen [] (concat clean)))) as HP.
  rewrite drop_duplicates_seen_rows_with_id in HP. cbn [existsb] in HP.
  destruct (rows_with_id a (concat clean)) as [| first rest]; cbn [first_only] in *.
  - apply Permutation_nil. symmetry. exact HP.
  - apply Permutation_length_1_inv. symmetry. exact HP.
Qed.

Lemma at_most_one_row_NoDup rows :
  (forall a, (length (rows_with_id a rows) <= 1)%nat) ->
  NoDup (map AirportID rows).
Proof.
  induction rows as [| r rows IH]; intros H; cbn [map]; constructor.
  - intros Hin. apply in_map_iff in Hin as (r' & Hid & Hin).
    specialize (H (AirportID r)). unfold rows_with_id in H. cbn [filter] in H.
    rewrite Z.eqb_refl in H. cbn [length] in H.
    assert (In r' (filter (fun x => AirportID x =? AirportID r) rows)) as Hf
      by (apply filter_In; split; [exact Hin | apply Z.eqb_eq; exact Hid]).
    destruct (filter (fun x => AirportID x =? AirportID r) rows);
      [destruct Hf | cbn [length] in H; lia].
  - apply IH. intros a. specialize (H a). unfold rows_with_id in *.
    cbn [filter] in H. destruct (AirportID r =? a); cbn [length] in H; lia.
Qed.

Lemma sorted_distinct_strict rows :
  StronglySorted id_le rows -> NoDup (map AirportID rows) ->
  StronglySorted id_lt rows.
Proof.
  induction 1 as [| r rows Hs IH Hall]; intros Hnd; constructor.
  - apply IH. inversion Hnd; assumption.
  - inversion Hnd as [| ? ? Hnotin _]; subst.
    rewrite Forall_forall in *. intros r' Hin.
    specialize (Hall r' Hin). unfold id_le in Hall. unfold id_lt.
    assert (AirportID r <> AirportID r').
    { intros Heq. apply Hnotin. rewrite Heq. apply in_map. exact Hin. }
    lia.
Qed.

(** JFK is met first as the origin of the second flight, whose city cell
    is missing: that row, with the filler, is the one kept. *)
Example all_airports_two_flights :
  all_airports (df_clean [flight_ord_jfk; flight_jfk_ord])
  = [ {| AirportID := 12478;
         AirportName := OStr "John F. Kennedy International";
         City := OInt 0; State := OStr "NY" |};
      {| AirportID := 13930;
         AirportName := OStr "Chicago O'Hare International";
         City := OStr "Chicago"; State := OStr "IL" |} ].
Proof. reflexivity. Qed.

(** C5: the airports table is built from the origin columns followed by
    the destination columns of the cleaned rows; of the candidate rows
    with one id it keeps the first and only the first; it is sorted by
    strictly ascending id.  So an id has exactly one row in the table when
    it occurs as an origin or as a destination, and none otherwise. *)
Theorem all_airports_one_row_per_id (df : list RawRecord) :
  let clean := df_clean df in
  let candidates := (origin_airports clean ++ dest_airports clean)%list in
  all_airports clean = sort_values (drop_duplicates candidates) /\
  StronglySorted id_lt (all_airports clean) /\
  (forall a,
     rows_with_id a (all_airports clean) = first_only (rows_with_id a candidates)) /\
  (forall a,
     length (rows_with_id a (all_airports clean))
     = if existsb (Z.eqb a) (map OriginAirportID clean ++ map DestAirportID clean)
       then 1%nat else 0%nat).
Proof.
  cbv zeta. set (clean := df_clean df).
  split; [reflexivity |].
  assert (Hrows : forall a, rows_with_id a (all_airports clean)
                            = first_only (rows_with_id a (concat clean)))
    by (intros a; apply all_airports_rows_with_id).
  split; [| split].
  - apply sorted_distinct_strict.
    + apply sort_values_sorted.
    + apply at_most_one_row_NoDup. intros a. rewrite Hrows.
      destruct (rows_with_id a (concat clean)); cbn; lia.
  - exact Hrows.
  - intros a. rewrite Hrows. clear Hrows.
    replace (map OriginAirportID clean ++ map DestAirportID clean)%list
      with (map AirportID (concat clean))
      by (unfold concat, origin_airports, dest_airports;
          rewrite map_app, !map_map; reflexivity).
    unfold rows_with_id.
    induction (concat clean) as [| r rows IH]; cbn [filter map existsb first_only length].
    + reflexivity.
    + rewrite (Z.eqb_sym a). destruct (AirportID r =? a); cbn [orb first_only length].
      * reflexivity.
      * exact IH.
Qed.

End TrainingFacts.

(* ================================================================== *)
(** ** Further properties of the prediction service *)

Section ApiFacts.
Import Py Server Checks Api Fixtures.

(** *** What every predict request gets *)

Lemma predict_delay_non_object_code st data log :
  (forall members, data <> JObj members) ->
  exists err code,
    predict_delay st data log = (Done (ErrorBody err, code), log) /\
    (code = 400 \/ code = 500).
Proof.
  intros Hdata. unfold predict_delay, try_except, predict_body.
  destruct (model st) as [m |]; [| unfold ret; eauto 6].
  destruct data as [| b | z | q | s | items | members];
    try (exfalso; eapply Hdata; reflexivity);
    unfold bind, lift, ret, py_in, py_getitem, bad_request;
    cbn [truthy negb];
    repeat match goal with
           | |- context [if ?c then _ else _] => destruct c; cbn [negb]
           | |- context [match ?l with [] => _ | _ :: _ => _ end] => destruct l
           end;
    eauto 6.
Qed.

Lemma predict_delay_non_object_loaded st m data log :
  model st = Some m ->
  (forall members, data <> JObj members) ->
  exists err code,
    predict_delay st data log = (Done (ErrorBody err, code), log) /\
    (code = 400 \/ exists e, err = PredictionFailed e).
Proof.
  intros Hm Hdata. unfold predict_delay, try_except, predict_body.
  rewrite Hm.
  destruct data as [| b | z | q | s | items | members];
    try (exfalso; eapply Hdata; reflexivity);
    unfold bind, lift, ret, py_in, py_getitem, bad_request;
    cbn [truthy negb];
    repeat match goal with
           | |- context [if ?c then _ else _] => destruct c; cbn [negb]
           | |- context [match ?l with [] => _ | _ :: _ => _ end] => destruct l
           end;
    eauto 8.
Qed.

Lemma predict_body_frame st data log :
  predict_body st data log
  = (fst (predict_body st data []), (log ++ snd (predict_body st data []))%list).
Proof.
  destruct (model st) as [m |] eqn:Hm.
  2:{ unfold predict_body. rewrite Hm. cbn. rewrite app_nil_r. reflexivity. }
  destruct data as [| b | z | q | s | items | members].
  1-6: unfold predict_body; rewrite Hm;
       unfold bind, lift, ret, py_in, py_getitem, bad_request;
       cbn [truthy negb];
       repeat match goal with
              | |- context [if ?c then _ else _] => destruct c; cbn [negb]
              | |- context [match ?l with [] => _ | _ :: _ => _ end] => destruct l
              end;
       cbn [fst snd]; rewrite app_nil_r; reflexivity.
  rewrite (predict_body_obj st m members log Hm),
          (predict_body_obj st m members [] Hm).
  destruct (first_failure st members);
    [cbn [fst snd]; rewrite app_nil_r; reflexivity |].
  destruct (lookup "day_of_week" members) as [d |];
    [| cbn [fst snd]; rewrite app_nil_r; reflexivity].
  destruct (lookup "airport_id" members) as [a |];
    [| cbn [fst snd]; rewrite app_nil_r; reflexivity].
  rewrite !predict_compute_run.
  destruct (predict_proba m (int_value d, int_value a)); reflexivity.
Qed.

(** The answer to a request does not depend on the invocations logged
    before it; the handler only appends its own. *)
Lemma predict_delay_frame st data log :
  predict_delay st data log
  = (fst (handle_predict st data), (log ++ snd (handle_predict st data))%list).
Proof.
  unfold handle_predict, predict_delay, try_except.
  rewrite (predict_body_frame st data log).
  destruct (predict_body st data []) as [[resp | e] calls]; reflexivity.
Qed.

Lemma error_status_facts (err : error_text) (code : Z) (calls : list FeatureVector) :
  code = 400 \/ code = 500 ->
  (length calls <= 1)%nat ->
  (code = 200 \/ code = 400 \/ code = 500) /\
  (code = 200 <-> exists p, ErrorBody err = PredictionBody p) /\
  (length calls <= 1)%nat /\
  (code = 200 -> length calls = 1%nat).
Proof.
  intros Hcode Hlen. split; [tauto |]. split; [| split; [exact Hlen |]].
  - split; [intros ->; destruct Hcode; discriminate |].
    intros (p & Hp). discriminate Hp.
  - intros ->. destruct Hcode; discriminate.
Qed.

(** X1: no exception leaves [predict_delay]; the status is 200, 400 or 500;
    the body is a prediction exactly when the status is 200; the
    classifier is invoked at most once, and exactly once for a 200. *)
Theorem predict_status_and_invocations st data :
  exists body code calls,
    handle_predict st data = (Done (body, code), calls) /\
    (code = 200 \/ code = 400 \/ code = 500) /\
    (code = 200 <-> exists p, body = PredictionBody p) /\
    (length calls <= 1)%nat /\
    (code = 200 -> length calls = 1%nat).
Proof.
  destruct (model st) as [m |] eqn:Hm.
  2:{ unfold handle_predict, predict_delay, try_except, predict_body.
      rewrite Hm. cbn. do 3 eexists. split; [reflexivity |].
      apply error_status_facts; cbn; auto. }
  destruct data as [| b | z | q | s | items | members].
  1-6: match goal with
       | |- context [handle_predict ?s ?data] =>
           destruct (predict_delay_non_object_code s data [])
             as (err & code & E & Hcode); [intros ms; discriminate |];
           unfold handle_predict; rewrite E;
           exists (ErrorBody err), code, [];
           split; [reflexivity | apply error_status_facts; cbn; auto]
       end.
  rewrite (handle_predict_obj st m members Hm).
  destruct (first_failure st members) as [text |] eqn:Hff.
  - do 3 eexists. split; [reflexivity |].
    apply error_status_facts; cbn; auto.
  - destruct (first_failure_none st members Hff) as (d & a & Hd & Ha & _).
    rewrite Hd, Ha. unfold try_except. rewrite predict_compute_run.
    destruct (predict_proba m (int_value d, int_value a)) as [probs | e].
    + do 3 eexists. split; [reflexivity |].
      repeat split; cbn; auto. eexists; reflexivity.
    + do 3 eexists. split; [reflexivity |].
      apply error_status_facts; cbn; auto.
Qed.

(** X2: a failure of the classifier stays in the request: a request that
    passes every check and on which the classifier raises [e] is answered
    with status 500 and "Prediction failed" for [e], after that one
    invocation. *)
Theorem predict_classifier_failure st m members d a e :
  model st = Some m ->
  first_failure st members = None ->
  lookup "day_of_week" members = Some d ->
  lookup "airport_id" members = Some a ->
  predict_proba m (int_value d, int_value a) = Raised e ->
  handle_predict st (JObj members)
  = (Done (ErrorBody (PredictionFailed e), 500), [(int_value d, int_value a)]).
Proof.
  intros Hm Hff Hd Ha He.
  rewrite (handle_predict_obj st m members Hm), Hff, Hd, Ha.
  unfold try_except. rewrite predict_compute_run, He. reflexivity.
Qed.

Lemma predict_classifier_failure_witness :
  handle_predict failing_state (request (JInt 1) (JInt 13930))
  = (Done (ErrorBody (PredictionFailed (ModelError "not fitted")), 500),
     [(1, 13930)]).
Proof.
  exact (predict_classifier_failure failing_state failing_model
           [("day_of_week", JInt 1); ("airport_id", JInt 13930)]
           (JInt 1) (JInt 13930) (ModelError "not fitted")
           eq_refl eq_refl eq_refl eq_refl eq_refl).
Defined.

(** X3: a request is answered with a prediction exactly when the model is
    loaded, the body is a JSON object holding an integer [day_of_week]
    within 1..7 and an integer [airport_id] that is in the airports table
    (when the table is loaded), and the classifier returns. *)
Theorem predict_ok_iff st data :
  (exists p code calls,
     handle_predict st data = (Done (PredictionBody p, code), calls))
  <->
  (exists m members d a probs,
     model st = Some m /\
     data = JObj members /\
     lookup "day_of_week" members = Some d /\
     lookup "airport_id" members = Some a /\
     day_of_week_ok d = true /\
     isinstance_int a = true /\
     airport_known st a = true /\
     predict_proba m (int_value d, int_value a) = Done probs).
Proof.
  split.
  - intros (p & code & calls & H).
    destruct (predict_success_inv st data p code calls H)
      as (m & members & d & a & probs & Hm & Hdata & Hd & Ha & Hff & Hp & _).
    destruct (first_failure_none st members Hff)
      as (d' & a' & Hd' & Ha' & Hday & Hint & Hknown).
    rewrite Hd in Hd'. rewrite Ha in Ha'.
    injection Hd' as <-. injection Ha' as <-.
    exists m, members, d, a, probs. repeat split; assumption.
  - intros (m & members & d & a & probs & Hm & -> & Hd & Ha & Hday & Hint
            & Hknown & Hp).
    assert (Hff : first_failure st members = None).
    { unfold first_failure. destruct members as [| kv rest]; [discriminate Hd |].
      rewrite Hd, Ha, Hday, Hint, Hknown. reflexivity. }
    rewrite (handle_predict_obj st m members Hm), Hff, Hd, Ha.
    unfold try_except. rewrite predict_compute_run, Hp.
    do 3 eexists. reflexivity.
Qed.

(** X4: only the two named fields of a body count: two non-empty JSON
    objects that agree on [day_of_week] and on [airport_id] get the same
    response and the same invocation, whatever else they hold. *)
Theorem predict_ignores_other_fields st members1 members2 :
  members1 <> [] ->
  members2 <> [] ->
  lookup "day_of_week" members1 = lookup "day_of_week" members2 ->
  lookup "airport_id" members1 = lookup "airport_id" members2 ->
  handle_predict st (JObj members1) = handle_predict st (JObj members2).
Proof.
  intros H1 H2 Hd Ha.
  destruct (model st) as [m |] eqn:Hm.
  - rewrite (handle_predict_obj st m members1 Hm),
            (handle_predict_obj st m members2 Hm).
    assert (Hff : first_failure st members1 = first_failure st members2).
    { unfold first_failure.
      destruct members1 as [| kv1 rest1]; [contradiction |].
      destruct members2 as [| kv2 rest2]; [contradiction |].
      rewrite Hd, Ha. reflexivity. }
    rewrite Hff, Hd, Ha. reflexivity.
  - unfold handle_predict, predict_delay, try_except, predict_body.
    rewrite Hm. reflexivity.
Qed.

Lemma predict_ignores_other_fields_witness :
  handle_predict ready
    (JObj [("carrier", JStr "DL"); ("airport_id", JInt 13930);
           ("day_of_week", JInt 5)])
  = handle_predict ready (request (JInt 5) (JInt 13930)).
Proof.
  apply predict_ignores_other_fields.
  - discriminate.
  - discriminate.
  - reflexivity.
  - reflexivity.
Defined.

(** X5: a JSON boolean passes the integer test of [day_of_week]: [true] is
    handled as day 1 and [false] as day 0 (same checks, same classifier
    invocation, same numbers and names), only the echoed value stays the
    boolean. *)
Theorem predict_boolean_day st members1 members2 b a :
  lookup "day_of_week" members1 = Some (JBool b) ->
  lookup "day_of_week" members2 = Some (JInt (if b then 1 else 0)) ->
  lookup "airport_id" members1 = Some a ->
  lookup "airport_id" members2 = Some a ->
  handle_predict st (JObj members1)
  = (map_day_echo (JBool b) (fst (handle_predict st (JObj members2))),
     snd (handle_predict st (JObj members2))).
Proof.
  intros Hd1 Hd2 Ha1 Ha2.
  destruct (model st) as [m |] eqn:Hm.
  2:{ unfold handle_predict, predict_delay, try_except, predict_body.
      rewrite Hm. reflexivity. }
  rewrite (handle_predict_obj st m members1 Hm),
          (handle_predict_obj st m members2 Hm).
  assert (Hff : first_failure st members1 = first_failure st members2).
  { unfold first_failure.
    destruct members1 as [| kv1 rest1]; [discriminate Hd1 |].
    destruct members2 as [| kv2 rest2]; [discriminate Hd2 |].
    rewrite Hd1, Hd2, Ha1, Ha2. destruct b; reflexivity. }
  rewrite Hff. destruct (first_failure st members2); [reflexivity |].
  rewrite Hd1, Hd2, Ha1, Ha2. unfold try_except.
  rewrite !predict_compute_run.
  replace (int_value (JBool b)) with (int_value (JInt (if b then 1 else 0)))
    by (destruct b; reflexivity).
  destruct (predict_proba m (int_value (JInt (if b then 1 else 0)), int_value a));
    reflexivity.
Qed.

Lemma predict_boolean_day_witness :
  handle_predict ready (request (JBool true) (JInt 12478))
  = (map_day_echo (JBool true)
       (fst (handle_predict ready (request (JInt 1) (JInt 12478)))),
     [(1, 12478)]).
Proof.
  exact (predict_boolean_day ready
           [("day_of_week", JBool true); ("airport_id", JInt 12478)]
           [("day_of_week", JInt 1); ("airport_id", JInt 12478)]
           true (JInt 12478) eq_refl eq_refl eq_refl eq_refl).
Defined.

(** *** The airport views *)

Lemma insert_by_name_perm row rows :
  Permutation (insert_by_name row rows) (row :: rows).
Proof.
  induction rows as [| row' rows IH]; cbn [insert_by_name]; [reflexivity |].
  destruct (String.leb (AirportName row) (AirportName row')); [reflexivity |].
  rewrite IH. apply perm_swap.
Qed.

Lemma sort_by_name_perm rows : Permutation (sort_by_name rows) rows.
Proof.
  induction rows as [| row rows IH]; cbn [sort_by_name]; [reflexivity |].
  rewrite insert_by_name_perm. constructor. exact IH.
Qed.

Lemma leb_false_flip s1 s2 :
  String.leb s1 s2 = false -> String.leb s2 s1 = true.
Proof.
  intros H. destruct (String.leb_total s1 s2) as [H' | H']; congruence.
Qed.

Lemma insert_by_name_sorted row rows :
  Sorted name_le (map airport_json rows) ->
  Sorted name_le (map airport_json (insert_by_name row rows)).
Proof.
  induction rows as [| row' rows IH]; cbn [insert_by_name map]; intros Hs.
  - repeat constructor.
  - destruct (String.leb (AirportName row) (AirportName row')) eqn:E;
      cbn [map].
    + constructor; [exact Hs |]. constructor. exact E.
    + apply leb_false_flip in E. apply Sorted_inv in Hs as [Hs Hhd].
      constructor; [apply IH; exact Hs |].
      destruct rows as [| row'' rows]; cbn [insert_by_name map].
      * constructor. exact E.
      * destruct (String.leb (AirportName row) (AirportName row''));
          cbn [map]; constructor.
        -- exact E.
        -- apply HdRel_inv in Hhd. exact Hhd.
Qed.

Lemma sort_by_name_sorted rows :
  Sorted name_le (map airport_json (sort_by_name rows)).
Proof.
  induction rows as [| row rows IH]; cbn [sort_by_name].
  - constructor.
  - apply insert_by_name_sorted. exact IH.
Qed.

(** X6: [get_airports] answers 500 while the airports table is not loaded;
    once it is, the listing is a rearrangement of the rows of the table
    (none lost, none added), ordered by ascending name, and [total_count]
    is the number of rows of the table. *)
Theorem get_airports_listing st :
  match airports_df st with
  | None => get_airports st = (AirportsError (Msg "Airports data not loaded"), 500)
  | Some df =>
      exists airports,
        get_airports st = (AirportsBody airports (Z.of_nat (length df)), 200) /\
        Permutation airports (map airport_json df) /\
        Sorted name_le airports
  end.
Proof.
  unfold get_airports. destruct (airports_df st) as [df |]; [| reflexivity].
  exists (map airport_json (sort_by_name df)). cbv zeta. repeat split.
  - rewrite length_map, (Permutation_length (sort_by_name_perm df)). reflexivity.
  - apply Permutation_map, sort_by_name_perm.
  - apply sort_by_name_sorted.
Qed.

Lemma rows_with_id_head_json i df row :
  hd_error (rows_with_id i df) = Some row ->
  get_airport_by_id {| model := None; model_info := None; airports_df := Some df |} i
  = (AirportBody (airport_json row), 200).
Proof.
  unfold get_airport_by_id. cbn [airports_df].
  destruct (rows_with_id i df) as [| r rest]; [discriminate |].
  cbn. intros [= ->]. reflexivity.
Qed.

Lemma get_airport_by_id_table st df i :
  airports_df st = Some df ->
  get_airport_by_id st i
  = get_airport_by_id {| model := None; model_info := None; airports_df := Some df |} i.
Proof.
  intros H. unfold get_airport_by_id. rewrite H. reflexivity.
Qed.

(** X7: the listing and the lookup agree: every airport of the listing is
    found by [get_airport_by_id] under its id, as that same record when
    the ids of the table are pairwise distinct; and every record the
    lookup returns is in the listing. *)
Theorem listing_and_lookup_agree st df airports n :
  airports_df st = Some df ->
  get_airports st = (AirportsBody airports n, 200) ->
  (forall a, In a airports ->
     exists a',
       get_airport_by_id st (id a) = (AirportBody a', 200) /\
       id a' = id a /\
       (NoDup (map AirportID df) -> a' = a)) /\
  (forall i a',
     get_airport_by_id st i = (AirportBody a', 200) -> In a' airports).
Proof.
  intros Hdf Hlist.
  assert (Hperm : Permutation airports (map airport_json df)).
  { unfold get_airports in Hlist. rewrite Hdf in Hlist. cbv zeta in Hlist.
    injection Hlist as <- _. apply Permutation_map, sort_by_name_perm. }
  split.
  - intros a Hin.
    apply (Permutation_in _ Hperm) in Hin.
    apply in_map_iff in Hin as (row & <- & Hrow).
    assert (Hmem : in_airport_ids (AirportID row) df = true)
      by (apply in_airport_ids_In, in_map; exact Hrow).
    destruct (in_airport_ids_first _ _ Hmem) as (first & Hhd & Hfirst & Hid).
    exists (airport_json first).
    rewrite (get_airport_by_id_table st df _ Hdf).
    split; [apply rows_with_id_head_json; exact Hhd |].
    split; [exact Hid |].
    intros Hnd. f_equal.
    clear - Hnd Hrow Hfirst Hid.
    induction df as [| r df IH]; [destruct Hrow |].
    cbn [map] in Hnd. apply NoDup_cons_iff in Hnd as [Hnotin Hnd].
    destruct Hrow as [<- | Hrow]; destruct Hfirst as [<- | Hfirst]; auto.
    + exfalso. apply Hnotin. rewrite <- Hid. apply in_map. exact Hfirst.
    + exfalso. apply Hnotin. rewrite Hid. apply in_map. exact Hrow.
  - intros i a' Hget.
    rewrite (get_airport_by_id_table st df _ Hdf) in Hget.
    unfold get_airport_by_id in Hget. cbn [airports_df] in Hget.
    destruct (rows_with_id i df) as [| row rest] eqn:E; [discriminate Hget |].
    injection Hget as <-.
    apply (Permutation_in _ (Permutation_sym Hperm)).
    apply (in_map airport_json).
    assert (In row (rows_with_id i df)) as Hin by (rewrite E; left; reflexivity).
    unfold rows_with_id in Hin. apply filter_In in Hin. tauto.
Qed.

Lemma listing_and_lookup_agree_witness :
  get_airport_by_id ready 12478 = (AirportBody (airport_json jfk), 200).
Proof.
  destruct (listing_and_lookup_agree ready directory
              [airport_json ohare; airport_json jfk] 2 eq_refl eq_refl)
    as [Hfound _].
  destruct (Hfound (airport_json jfk)) as (a' & Hget & _ & Hsame).
  - right. left. reflexivity.
  - change (id (airport_json jfk)) with 12478 in Hget.
    rewrite Hget. rewrite Hsame; [reflexivity |].
    repeat constructor; cbn; intuition discriminate.
Defined.

(** X8: with both the model and the airports table loaded, [predict_delay]
    and [get_airport_by_id] agree on which airports exist: a request with
    a valid day and an integer airport id is answered "not found" (400)
    exactly when the lookup of that id answers 404, and the airport name
    of a prediction is the name the lookup returns. *)
Theorem predict_and_lookup_agree st m df members d a :
  model st = Some m ->
  airports_df st = Some df ->
  lookup "day_of_week" members = Some d ->
  lookup "airport_id" members = Some a ->
  day_of_week_ok d = true ->
  isinstance_int a = true ->
  (handle_predict st (JObj members)
   = (Done (bad_request (airport_not_found_msg a)), [])
   <-> snd (get_airport_by_id st (int_value a)) = 404) /\
  (forall p code calls,
     handle_predict st (JObj members) = (Done (PredictionBody p, code), calls) ->
     exists found,
       get_airport_by_id st (int_value a) = (AirportBody found, 200) /\
       name found = input_airport_name p).
Proof.
  intros Hm Hdf Hd Ha Hday Hint.
  assert (Hff : first_failure st members
                = if in_airport_ids (int_value a) df then None
                  else Some (airport_not_found_msg a)).
  { unfold first_failure. destruct members as [| kv rest]; [discriminate Hd |].
    rewrite Hd, Ha, Hday, Hint. unfold airport_known. rewrite Hdf. cbn [negb].
    destruct (in_airport_ids (int_value a) df); reflexivity. }
  rewrite (handle_predict_obj st m members Hm), Hff, Hd, Ha.
  rewrite (get_airport_by_id_table st df _ Hdf).
  destruct (in_airport_ids (int_value a) df) eqn:Hmem.
  - destruct (in_airport_ids_first _ _ Hmem) as (row & Hhd & Hrow & Hid).
    rewrite (rows_with_id_head_json _ _ _ Hhd).
    unfold try_except. rewrite predict_compute_run.
    split.
    + split; [| discriminate].
      destruct (predict_proba m (int_value d, int_value a)); discriminate.
    + intros p code calls H.
      destruct (predict_proba m (int_value d, int_value a)) as [probs | e];
        [| discriminate H].
      injection H as <- _ _. exists (airport_json row).
      split; [reflexivity |].
      cbn [input_airport_name name airport_json]. rewrite Hdf.
      unfold airport_name_of.
      destruct (rows_with_id (int_value a) df) as [| r rest]; [discriminate Hhd |].
      cbn in Hhd. injection Hhd as ->. reflexivity.
  - split.
    + split; [| reflexivity].
      intros _. unfold get_airport_by_id. cbn [airports_df].
      destruct (rows_with_id (int_value a) df) as [| row rest] eqn:E; [reflexivity |].
      exfalso.
      assert (In row (rows_with_id (int_value a) df)) as Hin
        by (rewrite E; left; reflexivity).
      unfold rows_with_id in Hin. apply filter_In in Hin as [Hin Hid].
      assert (in_airport_ids (int_value a) df = true) as Habs.
      { apply in_airport_ids_In. apply Z.eqb_eq in Hid. rewrite <- Hid.
        apply in_map. exact Hin. }
      congruence.
    + intros p code calls H. discriminate H.
Qed.

Lemma predict_and_lookup_agree_witness :
  snd (get_airport_by_id ready 999999) = 404.
Proof.
  apply (proj1 (predict_and_lookup_agree ready stub_model directory
                  [("day_of_week", JInt 5); ("airport_id", JInt 999999)]
                  (JInt 5) (JInt 999999)
                  eq_refl eq_refl eq_refl eq_refl eq_refl eq_refl)).
  reflexivity.
Defined.

(** *** Loading and starting *)

(** X9: loading the same files again changes nothing: the second load
    returns the same flag and leaves the globals as the first left them. *)
Theorem load_twice fs st :
  load_model_and_data fs (fst (load_model_and_data fs st))
  = load_model_and_data fs st.
Proof.
  unfold load_model_and_data.
  destruct (flight_delay_model_pkl fs) as [m |];
    destruct (model_info_pkl fs) as [info |];
    destruct (airports_csv fs) as [rows |]; cbn [fst]; try reflexivity.
Qed.

(** X10: a load that fails is not undone: the airports table global is left
    as it was, while the model global already holds the model when the
    model file could be read, and the metadata global the metadata when
    both the model and the metadata file could be read.  [health_check]
    then reports the model as loaded all the same. *)
Theorem failed_load_is_partial fs st :
  snd (load_model_and_data fs st) = false ->
  let st' := fst (load_model_and_data fs st) in
  airports_df st' = airports_df st /\
  match flight_delay_model_pkl fs with
  | None => st' = st
  | Some m =>
      model st' = Some m /\
      model_info st'
      = match model_info_pkl fs with
        | Some info => Some info
        | None => model_info st
        end /\
      exists airports_loaded,
        health_check st' = (HealthBody "healthy" true airports_loaded, 200)
  end.
Proof.
  unfold load_model_and_data, health_check.
  destruct (flight_delay_model_pkl fs) as [m |];
    destruct (model_info_pkl fs) as [info |];
    destruct (airports_csv fs) as [rows |]; cbn; try discriminate;
    intros _; repeat split; eexists; reflexivity.
Qed.

Lemma failed_load_is_partial_witness :
  model (fst (load_model_and_data files_without_airports initial_state))
  = Some stub_model /\
  airports_df (fst (load_model_and_data files_without_airports initial_state))
  = None.
Proof.
  destruct (failed_load_is_partial files_without_airports initial_state eq_refl)
    as (Hdf & Hm & _).
  split; [exact Hm | exact Hdf].
Defined.

(** X11: the entry point starts the server only with everything loaded: it
    gives up exactly when one of the three files cannot be read; in the
    state it serves with, the three globals hold the three files,
    [health_check] reports both as loaded, no predict request is answered
    "Model not loaded", and a request with a valid day and an integer
    airport id outside the table is always rejected with status 400. *)
Theorem main_serves_loaded fs :
  match main fs with
  | None =>
      flight_delay_model_pkl fs = None \/ model_info_pkl fs = None
      \/ airports_csv fs = None
  | Some st =>
      exists m info df,
        flight_delay_model_pkl fs = Some m /\
        model_info_pkl fs = Some info /\
        airports_csv fs = Some df /\
        st = {| model := Some m; model_info := Some info; airports_df := Some df |} /\
        health_check st = (HealthBody "healthy" true true, 200) /\
        (forall data,
           fst (handle_predict st data)
           <> Done (ErrorBody (Msg "Model not loaded"), 500)) /\
        (forall members d a,
           lookup "day_of_week" members = Some d ->
           lookup "airport_id" members = Some a ->
           day_of_week_ok d = true ->
           isinstance_int a = true ->
           ~ In (int_value a) (map AirportID df) ->
           handle_predict st (JObj members)
           = (Done (bad_request (airport_not_found_msg a)), []))
  end.
Proof.
  unfold main, load_model_and_data.
  destruct (flight_delay_model_pkl fs) as [m |]; [| auto].
  destruct (model_info_pkl fs) as [info |]; [| auto].
  destruct (airports_csv fs) as [df |]; [| auto].
  exists m, info, df.
  set (st := {| model := Some m; model_info := Some info; airports_df := Some df |}).
  repeat split.
  - intros data H.
    destruct data as [| b | z | q | s | items | members].
    1-6: match type of H with
         | fst (handle_predict ?s ?data) = _ =>
             destruct (predict_delay_non_object_loaded s m data [] eq_refl)
               as (err & code & E & Hcode); [intros ms; discriminate |];
             unfold handle_predict in H; rewrite E in H; cbn [fst] in H;
             injection H as Herr Hc;
             destruct Hcode as [-> | (e & ->)]; discriminate
         end.
    rewrite (handle_predict_obj st m members eq_refl) in H.
    destruct (first_failure st members) as [text |];
      [discriminate H |].
      destruct (lookup "day_of_week" members) as [d |]; [| discriminate H].
      destruct (lookup "airport_id" members) as [a |]; [| discriminate H].
      unfold try_except in H. rewrite predict_compute_run in H.
      destruct (predict_proba m (int_value d, int_value a)); discriminate H.
  - intros members d a Hd Ha Hday Hint Hnot.
    rewrite (handle_predict_obj st m members eq_refl).
    assert (Hmem : in_airport_ids (int_value a) df = false).
    { destruct (in_airport_ids (int_value a) df) eqn:E; [| reflexivity].
      exfalso. apply Hnot. apply in_airport_ids_In. exact E. }
    unfold first_failure. destruct members as [| kv rest]; [discriminate Hd |].
    rewrite Hd, Ha, Hday, Hint. unfold airport_known. cbn [airports_df st negb].
    rewrite Hmem. reflexivity.
Qed.

(** *** The root view *)

(** X12: the metadata written by the training script comes back through
    the root view: after a successful load of files whose metadata is
    [feature_info accuracy], [home] reports the model type
    "RandomForestClassifier", that accuracy, and the two feature names in
    training order. *)
Theorem home_after_training accuracy fs st :
  model_info_pkl fs = Some (Training.feature_info accuracy) ->
  snd (load_model_and_data fs st) = true ->
  home (fst (load_model_and_data fs st))
  = Done {| info_type := VStr "RandomForestClassifier";
            info_accuracy := VFloat accuracy;
            info_features := VStrList ["DayOfWeek"; "OriginAirportID"] |}.
Proof.
  intros Hinfo. unfold load_model_and_data. rewrite Hinfo.
  destruct (flight_delay_model_pkl fs) as [m |]; [| discriminate].
  destruct (airports_csv fs) as [rows |]; [| discriminate].
  intros _. reflexivity.
Qed.

Lemma home_after_training_witness :
  home (fst (load_model_and_data (trained_files (4 # 5)) initial_state))
  = Done {| info_type := VStr "RandomForestClassifier";
            info_accuracy := VFloat (4 # 5);
            info_features := VStrList ["DayOfWeek"; "OriginAirportID"] |}.
Proof.
  exact (home_after_training (4 # 5) (trained_files (4 # 5)) initial_state
           eq_refl eq_refl).
Defined.

(** X13: [home] answers with the placeholders while the metadata global is
    [None] or an empty dictionary, and it raises exactly when the metadata
    is a non-empty dictionary that lacks one of the keys "model_type",
    "accuracy" and "features". *)
Theorem home_placeholders_and_failure st :
  (model_info st = None \/ model_info st = Some [] ->
   home st = Done home_defaults) /\
  ((exists e, home st = Raised e) <->
   exists info,
     model_info st = Some info /\ info <> [] /\
     (info_get "model_type" info = None \/ info_get "accuracy" info = None
      \/ info_get "features" info = None)).
Proof.
  unfold home, info_or. split.
  - intros [-> | ->]; reflexivity.
  - destruct (model_info st) as [[| entry rest] |].
    + split; [intros (e & H); discriminate H |].
      intros (info & [= <-] & Hne & _). contradiction.
    + unfold info_getitem. set (info := entry :: rest).
      destruct (info_get "model_type" info) as [t |] eqn:Et;
        destruct (info_get "accuracy" info) as [acc |] eqn:Ea;
        destruct (info_get "features" info) as [f |] eqn:Ef;
        (split;
         [ intros (e & H); try discriminate H;
           exists info; repeat split; auto; discriminate
         | intros (info' & [= <-] & _ & [H | [H | H]]);
           try congruence; eexists; reflexivity ]).
    + split; [intros (e & H); discriminate H |].
      intros (info & H & _). discriminate H.
Qed.

(** *** What the health flags mean *)

(** X14: the two flags of [health_check] tell which views are refused:
    [model_loaded] is false exactly when every predict request is answered
    "Model not loaded" (500), and [airports_loaded] is false exactly when
    the listing, and every lookup, is answered "Airports data not loaded"
    (500). *)
Theorem health_flags_mean st :
  exists model_loaded airports_loaded,
    health_check st = (HealthBody "healthy" model_loaded airports_loaded, 200) /\
    (model_loaded = false <->
     forall data,
       handle_predict st data
       = (Done (ErrorBody (Msg "Model not loaded"), 500), [])) /\
    (airports_loaded = false <->
     get_airports st = (AirportsError (Msg "Airports data not loaded"), 500)) /\
    (airports_loaded = false <->
     forall i,
       get_airport_by_id st i
       = (ErrorBody (Msg "Airports data not loaded"), 500)).
Proof.
  unfold health_check, get_airports, get_airport_by_id.
  do 2 eexists. split; [reflexivity |].
  split; [| split].
  - destruct (model st) as [m |] eqn:Hm.
    + split; [discriminate |].
      intros H. specialize (H JNull).
      unfold handle_predict, predict_delay, try_except, predict_body in H.
      rewrite Hm in H. discriminate H.
    + split; [| reflexivity].
      intros _ data.
      unfold handle_predict, predict_delay, try_except, predict_body.
      rewrite Hm. reflexivity.
  - destruct (airports_df st) as [df |]; split; try discriminate; reflexivity.
  - destruct (airports_df st) as [df |]; split; try discriminate;
      try reflexivity.
    intros H. specialize (H 0).
    destruct (rows_with_id 0 df); discriminate H.
Qed.

End ApiFacts.

(* ================================================================== *)
(** ** Further properties of the training script *)

Section TrainingMoreFacts.
Import Py Training Fixtures.

(** *** Labels *)

Lemma astype_int_one q :
  astype_int q = 1 <-> (1 <= q)%Q /\ (q < 2)%Q.
Proof.
  destruct q as [n d]. unfold astype_int, Qle, Qlt. cbn [Qnum Qden].
  rewrite !Z.mul_1_l, !Z.mul_1_r.
  assert (Hd : 0 < Z.pos d) by lia.
  split.
  - intros H.
    assert (0 <= n).
    { destruct (Z.lt_ge_cases n 0) as [Hn | Hn]; [| exact Hn].
      pose proof (Z.quot_opp_l n (Z.pos d) ltac:(lia)) as Ho.
      pose proof (Z.quot_pos (- n) (Z.pos d) ltac:(lia) Hd). lia. }
    rewrite Z.quot_div_nonneg in H by lia.
    pose proof (Z.div_mod n (Z.pos d) ltac:(lia)).
    pose proof (Z.mod_pos_bound n (Z.pos d) Hd). nia.
  - intros [H1 H2].
    rewrite Z.quot_div_nonneg by lia.
    symmetry. apply (Z.div_unique n (Z.pos d) 1 (n - Z.pos d)); lia.
Qed.

Lemma astype_int_zero q :
  astype_int q = 0 <-> (-1 < q)%Q /\ (q < 1)%Q.
Proof.
  destruct q as [n d]. unfold astype_int, Qlt. cbn [Qnum Qden].
  rewrite Z.quot_small_iff by lia.
  rewrite !Z.mul_1_l, !Z.mul_1_r. lia.
Qed.

(** X15: which raw labels are read as "delayed": a cleaned label is 1
    exactly when the raw cell holds a number in [1,2), and 0 exactly when
    the raw cell is missing or holds a number strictly between -1 and 1;
    the fraction is dropped, never rounded. *)
Theorem df_clean_label_values (df : list RawRecord) :
  Forall2 (fun (raw : RawRecord) (label : Z) =>
             (label = 1 <->
              exists q, DepDel15 raw = Some q /\ (1 <= q)%Q /\ (q < 2)%Q) /\
             (label = 0 <->
              DepDel15 raw = None \/
              exists q, DepDel15 raw = Some q /\ (-1 < q)%Q /\ (q < 1)%Q))
          df (y (df_clean df)).
Proof.
  unfold y, df_clean, fillna. rewrite !map_map.
  induction df as [| raw df IH]; cbn [map]; constructor; [| exact IH].
  cbn. destruct (DepDel15 raw) as [q |]; cbn [fillna_float].
  - rewrite astype_int_one, astype_int_zero. split; split.
    + intros H. exists q. tauto.
    + intros (q' & [= <-] & H). exact H.
    + intros H. right. exists q. tauto.
    + intros [H | (q' & [= <-] & H)]; [discriminate H | exact H].
  - split; split.
    + discriminate.
    + intros (q & H & _). discriminate H.
    + intros _. left. reflexivity.
    + reflexivity.
Qed.

(** *** The airports table *)

Lemma all_airports_strictly_sorted clean :
  StronglySorted id_lt (all_airports clean).
Proof.
  apply sorted_distinct_strict.
  - apply sort_values_sorted.
  - apply at_most_one_row_NoDup. intros a.
    rewrite all_airports_rows_with_id.
    destruct (rows_with_id a (concat clean)); cbn; lia.
Qed.

Lemma rows_with_id_app a rows1 rows2 :
  rows_with_id a (rows1 ++ rows2)
  = (rows_with_id a rows1 ++ rows_with_id a rows2)%list.
Proof. apply filter_app. Qed.

(** X16: an airport's row comes from the departures when there is one: the
    table holds, for an id, the origin columns of the first flight that
    departs from it, and the destination columns of the first flight that
    arrives at it only when no flight departs from it. *)
Theorem all_airports_origin_first (df : list RawRecord) (a : Z) :
  let clean := df_clean df in
  rows_with_id a (all_airports clean)
  = match rows_with_id a (origin_airports clean) with
    | first :: _ => [first]
    | [] => first_only (rows_with_id a (dest_airports clean))
    end.
Proof.
  cbv zeta. rewrite all_airports_rows_with_id.
  unfold concat. rewrite rows_with_id_app.
  destruct (rows_with_id a (origin_airports (df_clean df))); reflexivity.
Qed.

Lemma rows_with_id_In a row rows :
  In row rows -> AirportID row = a -> rows_with_id a rows <> [].
Proof.
  intros Hin Hid E.
  assert (In row (rows_with_id a rows)) as H
    by (apply filter_In; split; [exact Hin | apply Z.eqb_eq; exact Hid]).
  rewrite E in H. destruct H.
Qed.

(** X17: a missing airport id makes an airport: when some raw flight lacks
    its origin or its destination id, the airports table holds one row
    with id 0. *)
Theorem missing_id_becomes_airport_zero (df : list RawRecord) (raw : RawRecord) :
  In raw df ->
  OriginAirportID raw = None \/ DestAirportID raw = None ->
  exists row,
    rows_with_id 0 (all_airports (df_clean df)) = [row] /\ AirportID row = 0.
Proof.
  intros Hin Hnone.
  rewrite all_airports_rows_with_id.
  assert (Hne : rows_with_id 0 (concat (df_clean df)) <> []).
  { unfold concat, origin_airports, dest_airports, df_clean, fillna.
    rewrite !map_map.
    destruct Hnone as [Ho | Hd].
    - eapply rows_with_id_In.
      + apply in_or_app. left. apply in_map. exact Hin.
      + cbn. rewrite Ho. reflexivity.
    - eapply rows_with_id_In.
      + apply in_or_app. right. apply in_map. exact Hin.
      + cbn. rewrite Hd. reflexivity. }
  destruct (rows_with_id 0 (concat (df_clean df))) as [| row rest] eqn:E;
    [contradiction |].
  exists row. split; [reflexivity |].
  assert (In row (rows_with_id 0 (concat (df_clean df)))) as H
    by (rewrite E; left; reflexivity).
  unfold rows_with_id in H. apply filter_In in H as [_ H].
  apply Z.eqb_eq. exact H.
Qed.

Lemma missing_id_becomes_airport_zero_witness :
  exists row,
    rows_with_id 0 (all_airports (df_clean [flight_ord_jfk; flight_no_origin_id]))
    = [row] /\ AirportID row = 0.
Proof.
  apply (missing_id_becomes_airport_zero
           [flight_ord_jfk; flight_no_origin_id] flight_no_origin_id).
  - right. left. reflexivity.
  - left. reflexivity.
Defined.

Lemma rows_with_id_above a row rows :
  Forall (id_lt row) rows -> a <= AirportID row -> rows_with_id a rows = [].
Proof.
  intros Hall Hle. unfold rows_with_id.
  induction Hall as [| r rows Hr _ IH]; cbn [filter]; [reflexivity |].
  unfold id_lt in Hr.
  destruct (AirportID r =? a) eqn:E; [apply Z.eqb_eq in E; lia | exact IH].
Qed.

(** Two tables in strictly ascending id order that hold the same rows
    under every id are the same table. *)
Lemma strictly_sorted_ext rows1 : forall rows2,
  StronglySorted id_lt rows1 ->
  StronglySorted id_lt rows2 ->
  (forall a, rows_with_id a rows1 = rows_with_id a rows2) ->
  rows1 = rows2.
Proof.
  induction rows1 as [| r1 t1 IH]; intros [| r2 t2] Hs1 Hs2 Hrows.
  - reflexivity.
  - specialize (Hrows (AirportID r2)). unfold rows_with_id in Hrows.
    cbn [filter] in Hrows. rewrite Z.eqb_refl in Hrows. discriminate Hrows.
  - specialize (Hrows (AirportID r1)). unfold rows_with_id in Hrows.
    cbn [filter] in Hrows. rewrite Z.eqb_refl in Hrows. discriminate Hrows.
  - apply StronglySorted_inv in Hs1 as [Hs1 Hall1].
    apply StronglySorted_inv in Hs2 as [Hs2 Hall2].
    assert (Hid : AirportID r1 = AirportID r2).
    { pose proof (Hrows (AirportID r1)) as H1.
      pose proof (Hrows (AirportID r2)) as H2.
      unfold rows_with_id in H1, H2. cbn [filter] in H1, H2.
      rewrite Z.eqb_refl in H1, H2.
      destruct (AirportID r2 =? AirportID r1) eqn:E21;
        [apply Z.eqb_eq in E21; lia |].
      rewrite Z.eqb_sym, E21 in H2.
      fold (rows_with_id (AirportID r1) t1) in H1.
      fold (rows_with_id (AirportID r1) t2) in H1.
      fold (rows_with_id (AirportID r2) t1) in H2.
      fold (rows_with_id (AirportID r2) t2) in H2.
      rewrite (rows_with_id_above _ _ _ Hall1 (Z.le_refl _)) in H1.
      rewrite (rows_with_id_above _ _ _ Hall2 (Z.le_refl _)) in H2.
      assert (In r1 t2) as Hin1.
      { assert (In r1 (rows_with_id (AirportID r1) t2)) as H
          by (rewrite <- H1; left; reflexivity).
        unfold rows_with_id in H. apply filter_In in H. tauto. }
      assert (In r2 t1) as Hin2.
      { assert (In r2 (rows_with_id (AirportID r2) t1)) as H
          by (rewrite H2; left; reflexivity).
        unfold rows_with_id in H. apply filter_In in H. tauto. }
      rewrite Forall_forall in Hall1, Hall2.
      pose proof (Hall1 r2 Hin2) as L1. pose proof (Hall2 r1 Hin1) as L2.
      unfold id_lt in L1, L2. lia. }
    assert (Hr : r1 = r2).
    { pose proof (Hrows (AirportID r1)) as H1.
      unfold rows_with_id in H1. cbn [filter] in H1.
      rewrite <- Hid, Z.eqb_refl in H1. injection H1 as H1 _. exact H1. }
    subst r2. f_equal. apply IH; [exact Hs1 | exact Hs2 |].
    intros a. specialize (Hrows a). unfold rows_with_id in *.
    cbn [filter] in Hrows.
    destruct (AirportID r1 =? a); [injection Hrows as Hrows |]; exact Hrows.
Qed.

(** X18: reading the same flights twice gives the same airports table. *)
Theorem all_airports_repeated_flights (df : list RawRecord) :
  all_airports (df_clean (df ++ df)) = all_airports (df_clean df).
Proof.
  apply strictly_sorted_ext; try apply all_airports_strictly_sorted.
  intros a. rewrite !all_airports_rows_with_id.
  assert (Hclean : df_clean (df ++ df) = (df_clean df ++ df_clean df)%list)
    by (unfold df_clean, fillna; rewrite !map_app; reflexivity).
  rewrite Hclean. unfold concat.
  replace (origin_airports (df_clean df ++ df_clean df))
    with (origin_airports (df_clean df) ++ origin_airports (df_clean df))%list
    by (unfold origin_airports; rewrite map_app; reflexivity).
  replace (dest_airports (df_clean df ++ df_clean df))
    with (dest_airports (df_clean df) ++ dest_airports (df_clean df))%list
    by (unfold dest_airports; rewrite map_app; reflexivity).
  rewrite !rows_with_id_app.
  destruct (rows_with_id a (origin_airports (df_clean df))) as [| o os];
    destruct (rows_with_id a (dest_airports (df_clean df))) as [| d ds];
    reflexivity.
Qed.

(** X19: every airport of the feature matrix can be looked up: for each
    feature row, the airports table holds exactly one row with the
    feature's airport id, taken from the origin columns of the first
    flight departing from that airport. *)
Theorem trained_airports_are_listed (df : list RawRecord) (x : Z * Z) :
  In x (X (df_clean df)) ->
  exists row rest,
    rows_with_id (snd x) (all_airports (df_clean df)) = [row] /\
    AirportID row = snd x /\
    rows_with_id (snd x) (origin_airports (df_clean df)) = row :: rest.
Proof.
  intros Hin. set (clean := df_clean df) in *.
  rewrite all_airports_rows_with_id. unfold concat. rewrite rows_with_id_app.
  assert (Hne : rows_with_id (snd x) (origin_airports clean) <> []).
  { unfold X in Hin. apply in_map_iff in Hin as (r & <- & Hr).
    eapply rows_with_id_In.
    - unfold origin_airports. apply in_map. exact Hr.
    - reflexivity. }
  destruct (rows_with_id (snd x) (origin_airports clean)) as [| row rest] eqn:E;
    [contradiction |].
  exists row, rest. repeat split.
  assert (In row (rows_with_id (snd x) (origin_airports clean))) as H
    by (rewrite E; left; reflexivity).
  unfold rows_with_id in H. apply filter_In in H as [_ H].
  apply Z.eqb_eq. exact H.
Qed.

Lemma trained_airports_are_listed_witness :
  exists row rest,
    rows_with_id 12478
      (all_airports (df_clean [flight_ord_jfk; flight_jfk_ord])) = [row] /\
    AirportID row = 12478 /\
    rows_with_id 12478
      (origin_airports (df_clean [flight_ord_jfk; flight_jfk_ord])) = row :: rest.
Proof.
  apply (trained_airports_are_listed [flight_ord_jfk; flight_jfk_ord] (5, 12478)).
  right. left. reflexivity.
Defined.

End TrainingMoreFacts.
